(** * Movement-Counter: the client-side transaction protocol

    A shallow embedding of [src/app/lib/transactions.ts]: the two sponsored
    submission flows (custodial and native wallet), the entry-point mapping
    and the read-only counter fetch.

    Everything the module reaches outside itself (the chain client, the
    signer callbacks, [fetch], the clock, the console) is an external call:
    the [World] answers it, and the call with its answer is appended to a
    trace, so that what a flow did and in which order can be stated. *)

From Stdlib Require Import String Ascii List ZArith Bool Lia.
From ExtLib Require Import Structures.Monad Structures.MonadExc.
Import ListNotations.
Import MonadNotation.
Local Open Scope string_scope.
Local Open Scope monad_scope.
Set Warnings "-register-all".

(** ** JavaScript values *)

(** A number, as far as this module meets one: the integer-valued doubles
    ([Date.now()], amounts, counters) and [NaN]. *)
Inductive number : Type :=
| NaN
| Num (z : Z).

(** The values a parsed JSON body or a property read can yield. *)
Inductive value : Type :=
| VUndefined
| VNull
| VBoolean (b : bool)
| VNumber (n : number)
| VString (s : string)
| VArray (items : list value)
| VObject (fields : list (string * value)).

(** What a [throw] or a rejected promise carries. *)
Inductive thrown : Type :=
| Error (message : string)
| TypeError (message : string)
| Thrown (v : value).

(** A promise once it has settled. *)
Inductive settled (A : Type) : Type :=
| Resolved (a : A)
| Rejected (e : thrown).
Arguments Resolved {A} a.
Arguments Rejected {A} e.

(** ToBoolean, the test behind [!x] and [x || y]. *)
Definition truthy (v : value) : bool :=
  match v with
  | VUndefined | VNull => false
  | VBoolean b => b
  | VNumber NaN => false
  | VNumber (Num z) => negb (z =? 0)%Z
  | VString s => negb (s =? "")
  | VArray _ | VObject _ => true
  end.

(** [a || b] *)
Definition js_or (a b : value) : value := if truthy a then a else b.

Fixpoint assoc (k : string) (fields : list (string * value)) : value :=
  match fields with
  | [] => VUndefined
  | (k', v) :: rest => if k' =? k then v else assoc k rest
  end.

(** [v.k] for the two property names read by the module ([details] and
    [transactionHash]): reading off [null] or [undefined] throws, an object
    yields its own property, and no primitive or array has either name. *)
Definition get_property (v : value) (k : string) : settled value :=
  match v with
  | VUndefined =>
      Rejected (TypeError ("Cannot read properties of undefined (reading '" ++ k ++ "')"))
  | VNull =>
      Rejected (TypeError ("Cannot read properties of null (reading '" ++ k ++ "')"))
  | VObject fields => Resolved (assoc k fields)
  | _ => Resolved VUndefined
  end.

(** [a[0]] *)
Definition first (a : list value) : value :=
  match a with
  | [] => VUndefined
  | v :: _ => v
  end.

Section ToString.
(** Number::toString, a builtin that is not re-implemented here. *)
Variable Number_toString : number -> string.

(** ToString, as [new Error(v)] applies it to its argument. *)
Fixpoint ToString (v : value) : string :=
  match v with
  | VUndefined => "undefined"
  | VNull => "null"
  | VBoolean true => "true"
  | VBoolean false => "false"
  | VNumber n => Number_toString n
  | VString s => s
  | VArray items =>
      String.concat ","
        (map (fun i => match i with
                       | VUndefined | VNull => ""
                       | _ => ToString i
                       end) items)
  | VObject _ => "[object Object]"
  end.

(** [new Error(v)]: an absent message is the empty string. *)
Definition new_Error (v : value) : thrown :=
  match v with
  | VUndefined => Error ""
  | _ => Error (ToString v)
  end.
End ToString.

(** ** Strings *)

(** [s.startsWith(p)] *)
Fixpoint startsWith (s p : string) : bool :=
  match p, s with
  | EmptyString, _ => true
  | String _ _, EmptyString => false
  | String c p', String d s' => Ascii.eqb d c && startsWith s' p'
  end.

(** [s.slice(n)] for [n >= 0] *)
Fixpoint slice (n : nat) (s : string) : string :=
  match n, s with
  | O, _ => s
  | S _, EmptyString => EmptyString
  | S n', String _ rest => slice n' rest
  end.

(** [s.startsWith('0x') ? s.slice(2) : s] *)
Definition strip0x (s : string) : string :=
  if startsWith s "0x" then slice 2 s else s.

(** Lines 67-72: the public key handed to [new Ed25519PublicKey]. *)
Definition cleanPublicKey (publicKeyHex : string) : string :=
  let cleanPublicKey := strip0x publicKeyHex in
  if (String.length cleanPublicKey =? 66)%nat then slice 2 cleanPublicKey
  else cleanPublicKey.

(** ** The entry points *)

Inductive CounterAction : Type := increment | decrement.

(** The action as it appears in a template literal. *)
Definition action_text (a : CounterAction) : string :=
  match a with
  | increment => "increment"
  | decrement => "decrement"
  end.

Section EntryPoints.
(** The deployed contract's address, a constant of [./aptos]. *)
Variable CONTRACT_ADDRESS : string.

Definition getCounterFunction (action : CounterAction) : string :=
  let functionName :=
    match action with
    | increment => "add_counter"
    | decrement => "subtract_counter"
    end in
  CONTRACT_ADDRESS ++ "::counter::" ++ functionName.
End EntryPoints.

(** ** Objects of the chain SDK *)

Definition bytes : Type := list Byte.byte.

Record AccountAddress : Type := { address_data : bytes }.

(** The payload of an entry-function call. [typeArguments] is optional. *)
Record EntryFunctionData : Type := {
  function : string;
  typeArguments : option (list string);
  functionArguments : list number
}.

Record TransactionOptions : Type := {
  expireTimestamp : option Z
}.

(** The argument of [aptos.transaction.build.simple]; [sender] takes an
    address string or an [AccountAddress]. *)
Record BuildRequest : Type := {
  sender : string + AccountAddress;
  withFeePayer : bool;
  data : EntryFunctionData;
  options : option TransactionOptions
}.

Record RawTransaction : Type := {
  raw_sender : AccountAddress;
  sequence_number : Z;
  payload : EntryFunctionData;
  max_gas_amount : Z;
  gas_unit_price : Z;
  expiration_timestamp_secs : Z;
  chain_id : Z
}.

Record SimpleTransaction : Type := {
  rawTransaction : RawTransaction;
  feePayerAddress : option AccountAddress
}.

(** [new SimpleTransaction(raw)]: the fee payer is left for the backend. *)
Definition new_SimpleTransaction (raw : RawTransaction) : SimpleTransaction :=
  {| rawTransaction := raw; feePayerAddress := None |}.

Record Ed25519PublicKey : Type := { key_bytes : bytes }.
Record Ed25519Signature : Type := { signature_bytes : bytes }.

Inductive AccountAuthenticator : Type :=
| AccountAuthenticatorEd25519 (public_key : Ed25519PublicKey)
                              (sig : Ed25519Signature)
| AccountAuthenticatorOther (bcs : bytes).

(** The parameter and the result of a [SignRawHashFunction]. *)
Record SignRawHashParams : Type := {
  address : string;
  chainType : string;
  hash : string
}.

Record SignRawHashResult : Type := { signature : string }.

(** What the wallet's [signTransaction] hands back: an object with an
    [authenticator], or something else, on which reading
    [senderSig.authenticator.bcsToHex()] throws [complaint]. *)
Inductive WalletSignature : Type :=
| WithAuthenticator (authenticator : AccountAuthenticator)
| Malformed (complaint : thrown).

(** The second argument of [fetch]; [body] is the value that the source
    passes through [JSON.stringify]. *)
Record RequestInit : Type := {
  method : string;
  headers : list (string * string);
  body : value
}.

(** A fetch response: its status and what [response.json()] settles to. *)
Record Response : Type := {
  status : Z;
  json : settled value
}.

(** [response.ok] *)
Definition ok (r : Response) : bool :=
  ((200 <=? status r) && (status r <=? 299))%Z.

Record CommittedTransactionResponse : Type := {
  tx_hash : string;
  success : bool;
  vm_status : string
}.

Record ViewPayload : Type := {
  view_function : string;
  view_typeArguments : list string;
  view_functionArguments : list string
}.

(** ** External calls and the trace *)

(** The calls that can fail, indexed by what they resolve to. The two
    signing callbacks are arguments of the flows in the source; here the
    world answers for them. *)
Inductive call : Type -> Type :=
| AccountAddress_from (s : string) : call AccountAddress
| build_simple (args : BuildRequest) : call SimpleTransaction
| signRawHash (params : SignRawHashParams) : call SignRawHashResult
| signTransaction (transactionOrPayload : SimpleTransaction) : call WalletSignature
| new_Ed25519PublicKey (hex : string) : call Ed25519PublicKey
| new_Ed25519Signature (hex : string) : call Ed25519Signature
| fetch (url : string) (init : RequestInit) : call Response
| waitForTransaction (transactionHash : value) : call CommittedTransactionResponse
| view (payload : ViewPayload) : call (list value).

Inductive console_level : Type := level_log | level_error.

Inductive logged : Type :=
| LString (s : string)
| LValue (v : value)
| LThrown (e : thrown)
| LTransaction (t : CommittedTransactionResponse).

Inductive entry : Type :=
| Called {X : Type} (c : call X) (r : settled X)
| Clock (ms : Z)
| Console (level : console_level) (args : list logged).

Definition trace : Type := list entry.

(** The world outside the module. Answers may depend on what happened
    before. The pure functions are the SDK's serialisers and the builtins
    [Number] and Number::toString. *)
Record World : Type := {
  answer : forall X : Type, call X -> trace -> settled X;
  Date_now : trace -> Z;
  generateSigningMessageForTransaction : SimpleTransaction -> bytes;
  transaction_bcsToHex : SimpleTransaction -> string;
  authenticator_bcsToHex : AccountAuthenticator -> string;
  Number : value -> number;
  Number_toString : number -> string
}.

(** ** The monad of the flows: a world to ask, a trace to extend, and a
    result that is a value or a thrown error *)

Definition M (A : Type) : Type := World -> trace -> trace * settled A.

#[global] Instance Monad_M : Monad M := {|
  ret := fun _ a _ tr => (tr, Resolved a);
  bind := fun _ _ c k w tr =>
    match c w tr with
    | (tr', Resolved a) => k a w tr'
    | (tr', Rejected e) => (tr', Rejected e)
    end
|}.

#[global] Instance Exc_M : MonadExc thrown M := {|
  raise := fun _ e _ tr => (tr, Rejected e);
  catch := fun _ c handler w tr =>
    match c w tr with
    | (tr', Rejected e) => handler e w tr'
    | r => r
    end
|}.

(** [await c] for an external call *)
Definition perform {X : Type} (c : call X) : M X :=
  fun w tr => let r := answer w X c tr in ((tr ++ [Called c r])%list, r).

(** [await p] for a promise that has settled *)
Definition await {A : Type} (p : settled A) : M A :=
  fun _ tr => (tr, p).

(** A pure function of the SDK or a builtin *)
Definition sdk {A : Type} (f : World -> A) : M A :=
  fun w tr => (tr, Resolved (f w)).

(** [Date.now()] *)
Definition now : M Z :=
  fun w tr => let ms := Date_now w tr in ((tr ++ [Clock ms])%list, Resolved ms).

Definition console (level : console_level) (args : list logged) : M unit :=
  fun _ tr => ((tr ++ [Console level args])%list, Resolved tt).

Definition console_log : list logged -> M unit := console level_log.
Definition console_error : list logged -> M unit := console level_error.

(** [if (c) { throw e }] *)
Definition throw_if (c : bool) (e : thrown) : M unit :=
  if c then raise e else ret tt.

Definition run {A : Type} (w : World) (m : M A) : trace * settled A := m w [].

(** ** The flows of [transactions.ts] *)

Definition sponsor_url : string := "/api/sponsor-transaction".

(** The request of lines 88-97 and 153-162. *)
Definition sponsor_request (serializedTransaction senderSignature : string)
  : RequestInit :=
  {| method := "POST";
     headers := [("Content-Type", "application/json")];
     body := VObject [("serializedTransaction", VString serializedTransaction);
                      ("senderSignature", VString senderSignature)] |}.

(** Lines 99-102 and 164-167: a response that is not ok is turned into an
    [Error] carrying [error.details || 'Failed to sponsor transaction']. *)
Definition check_sponsored (response : Response) : M unit :=
  if negb (ok response) then
    error <- await (json response) ;;
    details <- await (get_property error "details") ;;
    e <- sdk (fun w => new_Error (Number_toString w)
                         (js_or details (VString "Failed to sponsor transaction"))) ;;
    raise e
  else ret tt.

(** [senderSig.authenticator] ready for [bcsToHex()] *)
Definition authenticator_of (senderSig : WalletSignature)
  : settled AccountAuthenticator :=
  match senderSig with
  | WithAuthenticator a => Resolved a
  | Malformed complaint => Rejected complaint
  end.

Section Transactions.
(** The two names imported from [./aptos] next to the client. *)
Variable CONTRACT_ADDRESS : string.
Variable toHex : bytes -> string.

Definition submitCounterTransaction (action : CounterAction) (amount : number)
    (walletAddress publicKeyHex : string) : M value :=
  catch
    (rawTxn <- perform (build_simple
       {| sender := inl walletAddress;
          withFeePayer := true;
          data := {| function := getCounterFunction CONTRACT_ADDRESS action;
                     typeArguments := Some [];
                     functionArguments := [amount] |};
          options := None |}) ;;
     message <- sdk (fun w => generateSigningMessageForTransaction w rawTxn) ;;
     signed <- perform (signRawHash
       {| address := walletAddress;
          chainType := "aptos";
          hash := "0x" ++ toHex message |}) ;;
     let rawSignature := signature signed in
     publicKey <- perform (new_Ed25519PublicKey (cleanPublicKey publicKeyHex)) ;;
     sig <- perform (new_Ed25519Signature (strip0x rawSignature)) ;;
     let senderAuthenticator := AccountAuthenticatorEd25519 publicKey sig in
     let simpleTransaction := new_SimpleTransaction (rawTransaction rawTxn) in
     serializedTransaction <- sdk (fun w => transaction_bcsToHex w simpleTransaction) ;;
     serializedSignature <- sdk (fun w => authenticator_bcsToHex w senderAuthenticator) ;;
     response <- perform (fetch sponsor_url
       (sponsor_request serializedTransaction serializedSignature)) ;;
     check_sponsored response ;;
     result <- await (json response) ;;
     transactionHash <- await (get_property result "transactionHash") ;;
     executed <- perform (waitForTransaction transactionHash) ;;
     throw_if (negb (success executed)) (Error "Transaction failed") ;;
     await (get_property result "transactionHash"))
    (fun error =>
       console_error
         [LString ("Error submitting " ++ action_text action ++ " transaction:");
          LThrown error] ;;
       raise error).

Definition buildSignAndSponsorTransaction (action : CounterAction)
    (amount : number) (walletAddress : string) : M value :=
  senderAddress <- perform (AccountAddress_from walletAddress) ;;
  ms <- now ;;
  simpleTx <- perform (build_simple
    {| sender := inr senderAddress;
       withFeePayer := true;
       data := {| function := getCounterFunction CONTRACT_ADDRESS action;
                  typeArguments := None;
                  functionArguments := [amount] |};
       options := Some {| expireTimestamp := Some (ms / 1000 + 5 * 60)%Z |} |}) ;;
  console_log [LString "Native wallet - Transaction built, requesting signature"] ;;
  senderSig <- perform (signTransaction simpleTx) ;;
  console_log [LString "Native wallet - Transaction signed, sending for sponsorship"] ;;
  serializedTransaction <- sdk (fun w => transaction_bcsToHex w simpleTx) ;;
  authenticator <- await (authenticator_of senderSig) ;;
  senderSignature <- sdk (fun w => authenticator_bcsToHex w authenticator) ;;
  response <- perform (fetch sponsor_url
    (sponsor_request serializedTransaction senderSignature)) ;;
  check_sponsored response ;;
  result <- await (json response) ;;
  transactionHash <- await (get_property result "transactionHash") ;;
  console_log [LString "Native wallet - Transaction sponsored and submitted:";
               LValue transactionHash] ;;
  await (get_property result "transactionHash").

Definition submitCounterTransactionNative (action : CounterAction)
    (amount : number) (walletAddress : string) : M value :=
  catch
    (throw_if (negb (truthy (VString walletAddress)))
              (Error "No wallet address provided") ;;
     transactionHash <-
       buildSignAndSponsorTransaction action amount walletAddress ;;
     throw_if (negb (truthy transactionHash))
              (Error "Unable to get transaction hash from backend") ;;
     console_log [LString "Native wallet - Waiting for transaction confirmation:";
                  LValue transactionHash] ;;
     executedTransaction <- perform (waitForTransaction transactionHash) ;;
     console_log [LString "Native wallet - Transaction confirmed:";
                  LTransaction executedTransaction] ;;
     throw_if (negb (success executedTransaction))
              (Error "Transaction failed on-chain") ;;
     ret transactionHash)
    (fun error =>
       console_error
         [LString ("Error submitting " ++ action_text action
                   ++ " transaction with native wallet:");
          LThrown error] ;;
       raise error).

(** Resolves to a number or to [null], which is [None] here. *)
Definition fetchCounterValue (address : string) : M (option number) :=
  catch
    (result <- perform (view
       {| view_function := CONTRACT_ADDRESS ++ "::counter::get_counter";
          view_typeArguments := [];
          view_functionArguments := [address] |}) ;;
     n <- sdk (fun w => Number w (first result)) ;;
     ret (Some n))
    (fun error =>
       console_error [LString "Error fetching counter value:"; LThrown error] ;;
       ret None).
End Transactions.

(** ** Reading a trace *)

Definition collect {A : Type} (f : entry -> option A) (tr : trace) : list A :=
  flat_map (fun e => match f e with Some a => [a] | None => [] end) tr.

(** The requests sent with [fetch], each with what came back. *)
Definition fetches : trace -> list (string * RequestInit * settled Response) :=
  collect (fun e =>
    match e with
    | Called c r =>
        match c in call X return settled X -> option _ with
        | fetch url init => fun r => Some (url, init, r)
        | _ => fun _ => None
        end r
    | _ => None
    end).

(** The POST requests that went to the sponsorship endpoint. *)
Definition sponsor_posts (tr : trace) : list (string * RequestInit * settled Response) :=
  filter (fun '(url, init, _) => (url =? sponsor_url) && (method init =? "POST"))
         (fetches tr).

(** The confirmation waits: the hash waited for and the outcome. *)
Definition waits : trace -> list (value * settled CommittedTransactionResponse) :=
  collect (fun e =>
    match e with
    | Called c r =>
        match c in call X return settled X -> option _ with
        | waitForTransaction h => fun r => Some (h, r)
        | _ => fun _ => None
        end r
    | _ => None
    end).

(** The transactions asked of the builder, each with what was built. *)
Definition builds : trace -> list (BuildRequest * settled SimpleTransaction) :=
  collect (fun e =>
    match e with
    | Called c r =>
        match c in call X return settled X -> option _ with
        | build_simple args => fun r => Some (args, r)
        | _ => fun _ => None
        end r
    | _ => None
    end).

(** What the custodial signer was sent, and its replies. *)
Definition digests_signed : trace -> list (SignRawHashParams * settled SignRawHashResult) :=
  collect (fun e =>
    match e with
    | Called c r =>
        match c in call X return settled X -> option _ with
        | signRawHash params => fun r => Some (params, r)
        | _ => fun _ => None
        end r
    | _ => None
    end).

(** The transactions handed to the wallet for signing. *)
Definition wallet_signed : trace -> list (SimpleTransaction * settled WalletSignature) :=
  collect (fun e =>
    match e with
    | Called c r =>
        match c in call X return settled X -> option _ with
        | signTransaction tx => fun r => Some (tx, r)
        | _ => fun _ => None
        end r
    | _ => None
    end).

(** The hex strings given to [new Ed25519PublicKey]. *)
Definition keys_constructed : trace -> list (string * settled Ed25519PublicKey) :=
  collect (fun e =>
    match e with
    | Called c r =>
        match c in call X return settled X -> option _ with
        | new_Ed25519PublicKey hex => fun r => Some (hex, r)
        | _ => fun _ => None
        end r
    | _ => None
    end).

(** The hex strings given to [new Ed25519Signature]. *)
Definition signatures_constructed : trace -> list (string * settled Ed25519Signature) :=
  collect (fun e =>
    match e with
    | Called c r =>
        match c in call X return settled X -> option _ with
        | new_Ed25519Signature hex => fun r => Some (hex, r)
        | _ => fun _ => None
        end r
    | _ => None
    end).

(** The readings of [Date.now()]. *)
Definition clock_readings : trace -> list Z :=
  collect (fun e => match e with Clock ms => Some ms | _ => None end).

(** Every external call that can fail, whatever its kind. *)
Definition is_call (e : entry) : bool :=
  match e with Called _ _ => true | _ => false end.

(** ** A world for running the flows on concrete inputs *)

Module Demo.
Definition an_address : AccountAddress := {| address_data := [] |}.

Definition built (args : BuildRequest) : SimpleTransaction :=
  {| rawTransaction :=
       {| raw_sender := an_address;
          sequence_number := 0;
          payload := data args;
          max_gas_amount := 200000;
          gas_unit_price := 100;
          expiration_timestamp_secs :=
            match options args with
            | Some {| expireTimestamp := Some t |} => t
            | _ => 1700000020
            end;
          chain_id := 250 |};
     feePayerAddress := None |}.

(** A backend that answers [status] with [reply], and a chain that
    reports [succeeded]. *)
Definition answers (status : Z) (reply : settled value) (succeeded : bool)
    (X : Type) (c : call X) (_ : trace) : settled X :=
  match c in call X return settled X with
  | AccountAddress_from _ => Resolved an_address
  | build_simple args => Resolved (built args)
  | signRawHash _ => Resolved {| signature := "0xfeed" |}
  | signTransaction _ =>
      Resolved (WithAuthenticator (AccountAuthenticatorOther []))
  | new_Ed25519PublicKey _ => Resolved {| key_bytes := [] |}
  | new_Ed25519Signature _ => Resolved {| signature_bytes := [] |}
  | fetch _ _ => Resolved {| status := status; json := reply |}
  | waitForTransaction _ =>
      Resolved {| tx_hash := "0xdeadbeef"; success := succeeded;
                  vm_status := "" |}
  | view _ => Resolved [VString "7"]
  end.

Definition world (status : Z) (reply : settled value) (succeeded : bool) : World :=
  {| answer := answers status reply succeeded;
     Date_now := fun _ => 1700000000123%Z;
     generateSigningMessageForTransaction := fun _ => [];
     transaction_bcsToHex := fun _ => "0x01";
     authenticator_bcsToHex := fun _ => "0x02";
     Number := fun _ => Num 7;
     Number_toString := fun _ => "7" |}.

(** Sponsorship accepted with [hash], confirmation as [succeeded]. *)
Definition accepting (hash : value) (succeeded : bool) : World :=
  world 200 (Resolved (VObject [("transactionHash", hash)])) succeeded.

(** Sponsorship refused with status 500 and [reply] as the body. *)
Definition refusing (reply : value) : World :=
  world 500 (Resolved reply) true.

Definition contract : string := "0xc0ffee".
Definition hex (_ : bytes) : string := "00".
End Demo.


(** ** Properties of a run *)

(** A flow hands back a hash only when the one confirmation wait it made
    was for that hash and reported success; a reported failure makes it
    throw [failure]. *)
Definition returns_only_confirmed (w : World) (m : M value) (failure : string)
  : Prop :=
  forall tr out, run w m = (tr, out) ->
    (forall h, out = Resolved h ->
       exists t, waits tr = [(h, Resolved t)] /\ success t = true) /\
    (forall h t, In (h, Resolved t) (waits tr) -> success t = false ->
       out = Rejected (Error failure)).

(** A build request that targets [entry] with [amount] as its only
    argument. *)
Definition calls_entry_point (entry : string) (amount : number)
    (b : BuildRequest * settled SimpleTransaction) : Prop :=
  function (data (fst b)) = entry /\
  functionArguments (data (fst b)) = [amount].

(** The sponsorship attempt did not go through: no response, or a response
    that is not ok. *)
Definition sponsorship_failed (r : settled Response) : Prop :=
  match r with
  | Rejected _ => True
  | Resolved response => ok response = false
  end.

(** An expiration set [minutes] after the clock reading [ms], in seconds. *)
Definition expires_after (minutes ms : Z) (req : BuildRequest) : Prop :=
  options req = Some {| expireTimestamp := Some (ms / 1000 + minutes * 60)%Z |}.

(** Hexadecimal digits, and strings made of them. *)
Definition is_hex_digit (c : ascii) : bool :=
  let n := nat_of_ascii c in
  ((48 <=? n) && (n <=? 57) || (97 <=? n) && (n <=? 102)
   || (65 <=? n) && (n <=? 70))%nat.

Fixpoint hex_string (s : string) : bool :=
  match s with
  | EmptyString => true
  | String c rest => is_hex_digit c && hex_string rest
  end.

(** The message of the error that a refused sponsorship is turned into,
    given the [details] read off the response body. *)
Definition fallback_message : string := "Failed to sponsor transaction".

(** The custodial flow has what its authenticator is made of: the signer
    returned a signature, and the SDK constructed both the public-key
    object and the signature object (lines 59-77). *)
Definition custodial_authenticator_built (tr : trace) : Prop :=
  (exists params signed, In (params, Resolved signed) (digests_signed tr)) /\
  (exists hex publicKey, In (hex, Resolved publicKey) (keys_constructed tr)) /\
  (exists hex sig, In (hex, Resolved sig) (signatures_constructed tr)).

(** The wallet handed back an authenticator. *)
Definition wallet_signed_with_authenticator (tr : trace) : Prop :=
  exists tx a, In (tx, Resolved (WithAuthenticator a)) (wallet_signed tr).

(** A run that sends at most one request, a POST to the sponsorship
    endpoint; exactly one if and only if [ready] holds of its trace; and
    that, when the attempt fails, throws without a confirmation wait. *)
Definition single_attempt (ready : trace -> Prop) (r : trace * settled value)
  : Prop :=
  (length (fetches (fst r)) <= 1)%nat /\
  sponsor_posts (fst r) = fetches (fst r) /\
  (ready (fst r) <-> length (sponsor_posts (fst r)) = 1%nat) /\
  (forall url init reply,
     In (url, init, reply) (sponsor_posts (fst r)) ->
     sponsorship_failed reply ->
     (exists e, snd r = Rejected e) /\ waits (fst r) = []).

(** What a flow [m] does with a sponsorship response that is not ok and
    whose body reads [details]: it throws
    [new Error(details || 'Failed to sponsor transaction')]. *)
Definition surfaces_details (w : World) (m : M value) : Prop :=
  forall tr out, run w m = (tr, out) ->
  forall url init response error details,
    In (url, init, Resolved response) (fetches tr) ->
    ok response = false ->
    json response = Resolved error ->
    get_property error "details" = Resolved details ->
    out = Rejected (new_Error (Number_toString w)
                      (js_or details (VString fallback_message))).

(** ** More ways to read a trace *)

(** The addresses given to [AccountAddress.from]. *)
Definition addresses_parsed : trace -> list (string * settled AccountAddress) :=
  collect (fun e =>
    match e with
    | Called c r =>
        match c in call X return settled X -> option _ with
        | AccountAddress_from s => fun r => Some (s, r)
        | _ => fun _ => None
        end r
    | _ => None
    end).

(** What went to [console.error]. *)
Definition error_logs : trace -> list (list logged) :=
  collect (fun e =>
    match e with
    | Console level_error args => Some args
    | _ => None
    end).

(** The first external call that was rejected: what it was rejected with
    and what the trace holds after it. *)
Fixpoint first_rejection (tr : trace) : option (thrown * trace) :=
  match tr with
  | [] => None
  | Called _ (Rejected e) :: rest => Some (e, rest)
  | _ :: rest => first_rejection rest
  end.

(** The stages of a submission, one per kind of external call. *)
Inductive stage : Type :=
| stage_address
| stage_build
| stage_sign_digest
| stage_sign_wallet
| stage_key
| stage_signature
| stage_sponsor
| stage_confirm
| stage_view.

Definition stage_of {X : Type} (c : call X) : stage :=
  match c with
  | AccountAddress_from _ => stage_address
  | build_simple _ => stage_build
  | signRawHash _ => stage_sign_digest
  | signTransaction _ => stage_sign_wallet
  | new_Ed25519PublicKey _ => stage_key
  | new_Ed25519Signature _ => stage_signature
  | fetch _ _ => stage_sponsor
  | waitForTransaction _ => stage_confirm
  | view _ => stage_view
  end.

(** The stages a run went through, in order. *)
Definition stages : trace -> list stage :=
  collect (fun e =>
    match e with
    | Called c _ => Some (stage_of c)
    | _ => None
    end).

Definition custodial_pipeline : list stage :=
  [stage_build; stage_sign_digest; stage_key; stage_signature; stage_sponsor;
   stage_confirm].

Definition native_pipeline : list stage :=
  [stage_address; stage_build; stage_sign_wallet; stage_sponsor; stage_confirm].

(** The first argument of [console.error] in the two [catch] blocks
    (lines 117 and 215). *)
Definition custodial_log_prefix (action : CounterAction) : string :=
  "Error submitting " ++ action_text action ++ " transaction:".

Definition native_log_prefix (action : CounterAction) : string :=
  "Error submitting " ++ action_text action ++ " transaction with native wallet:".

(** ** More properties of a run *)

(** A rejection is logged once, as the last thing the run does, and is the
    error that was caught; a run that resolves logs no error. *)
Definition logs_and_rethrows (prefix : string) (r : trace * settled value)
  : Prop :=
  (forall e, snd r = Rejected e ->
     error_logs (fst r) = [[LString prefix; LThrown e]] /\
     hd_error (rev (fst r))
     = Some (Console level_error [LString prefix; LThrown e])) /\
  (forall h, snd r = Resolved h -> error_logs (fst r) = []).

(** When an external call is rejected, the run is rejected with the same
    error and does nothing after that call but log it. *)
Definition fails_fast (prefix : string) (r : trace * settled value) : Prop :=
  forall e post, first_rejection (fst r) = Some (e, post) ->
    snd r = Rejected e /\
    post = [Console level_error [LString prefix; LThrown e]].

(** The run went through the stages of [pipeline] in order, each at most
    once, and through all of them if it resolved. *)
Definition follows (pipeline : list stage) (r : trace * settled value) : Prop :=
  (exists rest, pipeline = (stages (fst r) ++ rest)%list) /\
  (forall h, snd r = Resolved h -> stages (fst r) = pipeline).

(** A run that resolved to [h] got one ok response from the sponsorship
    endpoint, and [h] is the [transactionHash] of its body. *)
Definition hash_of_ok_response (r : trace * settled value) : Prop :=
  forall h, snd r = Resolved h ->
    exists init response result,
      fetches (fst r) = [(sponsor_url, init, Resolved response)] /\
      ok response = true /\
      json response = Resolved result /\
      get_property result "transactionHash" = Resolved h.

(** A response that is not ok and whose body cannot be read for [details]
    surfaces what reading it threw. *)
Definition surfaces_unreadable_body (r : trace * settled value) : Prop :=
  forall url init response e,
    In (url, init, Resolved response) (fetches (fst r)) ->
    ok response = false ->
    json response = Rejected e \/
    (exists error, json response = Resolved error /\
                   get_property error "details" = Rejected e) ->
    snd r = Rejected e /\ waits (fst r) = [].

(** Worlds in which one stage goes wrong. *)
Module Scenario.
(** The custodial signer turns the request down. *)
Definition signer_refuses : World :=
  {| answer := fun X c tr =>
       match c in call X return settled X with
       | signRawHash _ => Rejected (Error "User rejected the request")
       | c' => Demo.answers 200 (Resolved (VObject [])) true _ c' tr
       end;
     Date_now := fun _ => 1700000000123%Z;
     generateSigningMessageForTransaction := fun _ => [];
     transaction_bcsToHex := fun _ => "0x01";
     authenticator_bcsToHex := fun _ => "0x02";
     Number := fun _ => Num 7;
     Number_toString := fun _ => "7" |}.

(** The wallet hands back something without an authenticator. *)
Definition wallet_reply_malformed : World :=
  {| answer := fun X c tr =>
       match c in call X return settled X with
       | signTransaction _ =>
           Resolved (Malformed
             (TypeError "Cannot read properties of undefined (reading 'bcsToHex')"))
       | c' => Demo.answers 200 (Resolved (VObject [])) true _ c' tr
       end;
     Date_now := fun _ => 1700000000123%Z;
     generateSigningMessageForTransaction := fun _ => [];
     transaction_bcsToHex := fun _ => "0x01";
     authenticator_bcsToHex := fun _ => "0x02";
     Number := fun _ => Num 7;
     Number_toString := fun _ => "7" |}.

(** The signer returns a signature, but the SDK refuses the public key. *)
Definition key_refused : World :=
  {| answer := fun X c tr =>
       match c in call X return settled X with
       | new_Ed25519PublicKey _ => Rejected (Error "PublicKey length should be 32")
       | c' => Demo.answers 200 (Resolved (VObject [])) true _ c' tr
       end;
     Date_now := fun _ => 1700000000123%Z;
     generateSigningMessageForTransaction := fun _ => [];
     transaction_bcsToHex := fun _ => "0x01";
     authenticator_bcsToHex := fun _ => "0x02";
     Number := fun _ => Num 7;
     Number_toString := fun _ => "7" |}.

(** The backend answers 502 with a body that is not JSON. *)
Definition gateway_error : World :=
  Demo.world 502 (Rejected (Thrown (VString "Unexpected token < in JSON"))) true.
End Scenario.

(** * Proofs *)

(** ** Symbolic execution *)

(** One step of a flow: ask the world for the next answer, or decide the
    next test of the source. The answer is kept in the trace. *)
Ltac branch :=
  match goal with
  | |- context [(?s =? "")%string] => destruct (String.eqb_spec s "")
  | |- context [answer ?w ?X ?c ?tr] => destruct (answer w X c tr)
  | |- context [authenticator_of ?s] => destruct s
  | |- context [ok ?r] => destruct (ok r) eqn:?
  | |- context [json ?r] => destruct (json r) eqn:?
  | |- context [get_property ?v ?k] => destruct (get_property v k) eqn:?
  | |- context [success ?t] => destruct (success t) eqn:?
  | |- context [truthy ?v] => destruct (truthy v) eqn:?
  end.

Ltac explore :=
  unfold run, submitCounterTransaction, submitCounterTransactionNative,
    buildSignAndSponsorTransaction, fetchCounterValue, check_sponsored,
    throw_if, console_error, console_log, console, await, sdk, now, perform;
  cbn;
  repeat (branch; cbn).

(** Name the trace and the outcome of a finished run. *)
Ltac finished :=
  let H := fresh "Hrun" in
  intros H; inversion H; subst; clear H; cbn in *.

(** Split a membership in a short explicit list into its cases. *)
Ltac members :=
  repeat match goal with
         | H : _ \/ _ |- _ => destruct H as [H | H]
         | H : False |- _ => contradiction
         | H : (_, _) = (_, _) |- _ => inversion H; subst; clear H
         | H : Resolved _ = Resolved _ |- _ => inversion H; subst; clear H
         | H : Resolved _ = Rejected _ |- _ => discriminate H
         | H : Rejected _ = Resolved _ |- _ => discriminate H
         end.

(** Close the four parts of [single_attempt] on an explored run. *)
Ltac attempt :=
  unfold single_attempt, custodial_authenticator_built,
    wallet_signed_with_authenticator, sponsorship_failed;
  cbn;
  split; [auto | split; [reflexivity | split; [split |]]];
  [ intros Hready;
    repeat match goal with
           | H : _ /\ _ |- _ => destruct H
           | H : exists _, _ |- _ => destruct H
           end;
    members; reflexivity
  | intros Hone;
    solve [discriminate Hone | repeat split; eexists; eexists; left; reflexivity
          | eexists; eexists; left; reflexivity]
  | intros url init reply Hin Hfailed; members;
    solve [split; eauto | congruence] ].

(** Follow the custodial flow from one stage to the next: each call is the
    one stated, and the flow goes on when it resolved. *)
Ltac onward :=
  repeat (eexists; split; [reflexivity |];
          let H := fresh "Hreply" in
          intros ? H; first [discriminate H | inversion H; subst; clear H]);
  try (eexists; reflexivity).

(** Close [logs_and_rethrows] on an explored run. *)
Ltac rethrown :=
  unfold logs_and_rethrows, custodial_log_prefix, native_log_prefix;
  cbn;
  split; [intros e' He | intros h' Hh];
  solve [discriminate | inversion He; subst; split; reflexivity | reflexivity].

(** Close [fails_fast] on an explored run. *)
Ltac failing :=
  unfold fails_fast, custodial_log_prefix, native_log_prefix;
  cbn;
  intros e' post Hfirst;
  solve [discriminate Hfirst
        | inversion Hfirst; subst; split; reflexivity].

(** Close [follows] on an explored run. *)
Ltac ordered :=
  unfold follows, custodial_pipeline, native_pipeline;
  cbn;
  split; [eexists; reflexivity
         | intros h' Hh; solve [discriminate Hh | reflexivity]].

(** Close [surfaces_unreadable_body] on an explored run. *)
Ltac unreadable :=
  unfold surfaces_unreadable_body;
  cbn;
  intros url init response e' Hin Hok; members;
  intros [Hjson | [error' [Hjson Hget]]];
  solve [split; congruence | congruence].

(** ** Runs on concrete inputs *)

(** The end-to-end scenario: increment by 5 from [0xABC], sponsorship
    answering [0xdeadbeef], confirmation succeeding. *)
Example custodial_end_to_end :
  snd (run (Demo.accepting (VString "0xdeadbeef") true)
         (submitCounterTransaction Demo.contract Demo.hex increment (Num 5)
            "0xABC" "0x00"))
  = Resolved (VString "0xdeadbeef").
Proof. reflexivity. Qed.

Example native_end_to_end :
  snd (run (Demo.accepting (VString "0xdeadbeef") true)
         (submitCounterTransactionNative Demo.contract increment (Num 5) "0xABC"))
  = Resolved (VString "0xdeadbeef").
Proof. reflexivity. Qed.

Example refused_with_details :
  snd (run (Demo.refusing (VObject [("details", VString "insufficient balance")]))
         (submitCounterTransactionNative Demo.contract increment (Num 5) "0xABC"))
  = Rejected (Error "insufficient balance").
Proof. reflexivity. Qed.

(** [details] that is not a string goes through ToString: an empty array is
    truthy and reads as the empty string. *)
Example refused_with_array_details :
  snd (run (Demo.refusing (VObject [("details", VArray [])]))
         (submitCounterTransaction Demo.contract Demo.hex increment (Num 5)
            "0xABC" "0x00"))
  = Rejected (Error "").
Proof. reflexivity. Qed.

(** A body that is [null] has no [details] to read. *)
Example refused_with_null_body :
  snd (run (Demo.refusing VNull)
         (submitCounterTransaction Demo.contract Demo.hex increment (Num 5)
            "0xABC" "0x00"))
  = Rejected (TypeError "Cannot read properties of null (reading 'details')").
Proof. reflexivity. Qed.

Example cleanPublicKey_prefixed : cleanPublicKey "0xa1b2" = "a1b2".
Proof. reflexivity. Qed.

Example counter_unavailable :
  snd (run {| answer := fun X _ _ => Rejected (Error "network down");
              Date_now := fun _ => 0%Z;
              generateSigningMessageForTransaction := fun _ => [];
              transaction_bcsToHex := fun _ => "";
              authenticator_bcsToHex := fun _ => "";
              Number := fun _ => NaN;
              Number_toString := fun _ => "NaN" |}
         (fetchCounterValue Demo.contract "0xABC"))
  = Resolved None.
Proof. reflexivity. Qed.

(** ** The transaction asked of the builder *)

(** The custodial flow starts by asking the builder, once, for this
    transaction. *)
Lemma custodial_builds_once CONTRACT_ADDRESS toHex w action amount
    walletAddress publicKeyHex :
  exists r,
    builds (fst (run w (submitCounterTransaction CONTRACT_ADDRESS toHex action
                          amount walletAddress publicKeyHex)))
    = [({| sender := inl walletAddress;
           withFeePayer := true;
           data := {| function := getCounterFunction CONTRACT_ADDRESS action;
                      typeArguments := Some [];
                      functionArguments := [amount] |};
           options := None |}, r)].
Proof. explore; eexists; reflexivity. Qed.

(** ** Confirmation before return (C1) *)

Section Confirmation.
Variable CONTRACT_ADDRESS : string.
Variable toHex : bytes -> string.
Variable w : World.
Variables (action : CounterAction) (amount : number).
Variables (walletAddress publicKeyHex : string).

Lemma custodial_confirmed :
  returns_only_confirmed w
    (submitCounterTransaction CONTRACT_ADDRESS toHex action amount
       walletAddress publicKeyHex)
    "Transaction failed".
Proof.
  intros tr out. explore; finished;
    (split; [intros h Hh | intros h t Hin Hfail]); members;
    solve [eauto | congruence].
Qed.

Lemma native_confirmed :
  returns_only_confirmed w
    (submitCounterTransactionNative CONTRACT_ADDRESS action amount
       walletAddress)
    "Transaction failed on-chain".
Proof.
  intros tr out. explore; finished;
    (split; [intros h Hh | intros h t Hin Hfail]); members;
    solve [eauto | congruence].
Qed.
End Confirmation.

(** C1. Either submission flow returns the transaction hash only if its
    confirmation wait, made for that very hash, reported the executed
    transaction with [success = true]; when the wait reports
    [success = false] the flow throws instead ("Transaction failed" in the
    custodial flow, "Transaction failed on-chain" in the native one). *)
Theorem hash_returned_only_after_confirmed_success :
  forall CONTRACT_ADDRESS toHex w action amount walletAddress publicKeyHex,
    returns_only_confirmed w
      (submitCounterTransaction CONTRACT_ADDRESS toHex action amount
         walletAddress publicKeyHex)
      "Transaction failed" /\
    returns_only_confirmed w
      (submitCounterTransactionNative CONTRACT_ADDRESS action amount
         walletAddress)
      "Transaction failed on-chain".
Proof.
  intros. split.
  - apply custodial_confirmed.
  - apply native_confirmed.
Qed.

Lemma hash_returned_only_after_confirmed_success_witness :
  (exists t, waits (fst (run (Demo.accepting (VString "0xdeadbeef") true)
                           (submitCounterTransaction Demo.contract Demo.hex
                              increment (Num 5) "0xABC" "0x00")))
             = [(VString "0xdeadbeef", Resolved t)] /\ success t = true) /\
  snd (run (Demo.accepting (VString "0xdeadbeef") false)
         (submitCounterTransactionNative Demo.contract increment (Num 5) "0xABC"))
  = Rejected (Error "Transaction failed on-chain").
Proof.
  split.
  - apply (proj1 (proj1 (hash_returned_only_after_confirmed_success
                           Demo.contract Demo.hex
                           (Demo.accepting (VString "0xdeadbeef") true)
                           increment (Num 5) "0xABC" "0x00")
                   _ _ eq_refl) (VString "0xdeadbeef") eq_refl).
  - apply (proj2 (proj2 (hash_returned_only_after_confirmed_success
                           Demo.contract Demo.hex
                           (Demo.accepting (VString "0xdeadbeef") false)
                           increment (Num 5) "0xABC" "0x00")
                   _ _ eq_refl) (VString "0xdeadbeef")
             {| tx_hash := "0xdeadbeef"; success := false; vm_status := "" |}).
    + cbn. left. reflexivity.
    + reflexivity.
Defined.

(** ** The entry-point mapping (C2) *)

Section EntryPointMapping.
Variable CONTRACT_ADDRESS : string.
Variable toHex : bytes -> string.
Variable w : World.
Variables (action : CounterAction) (amount : number).
Variables (walletAddress publicKeyHex : string).

Lemma custodial_targets :
  Forall (calls_entry_point (getCounterFunction CONTRACT_ADDRESS action) amount)
    (builds (fst (run w (submitCounterTransaction CONTRACT_ADDRESS toHex action
                           amount walletAddress publicKeyHex)))).
Proof.
  destruct (custodial_builds_once CONTRACT_ADDRESS toHex w action amount
              walletAddress publicKeyHex) as [r ->].
  repeat constructor.
Qed.

Lemma native_targets :
  Forall (calls_entry_point (getCounterFunction CONTRACT_ADDRESS action) amount)
    (builds (fst (run w (submitCounterTransactionNative CONTRACT_ADDRESS action
                           amount walletAddress)))).
Proof. explore; repeat constructor. Qed.
End EntryPointMapping.

(** C2. [getCounterFunction] maps [increment] to
    [<CONTRACT_ADDRESS>::counter::add_counter] and [decrement] to
    [<CONTRACT_ADDRESS>::counter::subtract_counter]; every transaction that
    either flow asks the builder for targets the entry point of its action
    with the amount as the only function argument, and the custodial flow
    always asks for exactly one. *)
Theorem entry_point_mapping_exact :
  forall CONTRACT_ADDRESS toHex w action amount walletAddress publicKeyHex,
    getCounterFunction CONTRACT_ADDRESS increment
      = CONTRACT_ADDRESS ++ "::counter::add_counter" /\
    getCounterFunction CONTRACT_ADDRESS decrement
      = CONTRACT_ADDRESS ++ "::counter::subtract_counter" /\
    Forall (calls_entry_point (getCounterFunction CONTRACT_ADDRESS action) amount)
      (builds (fst (run w (submitCounterTransaction CONTRACT_ADDRESS toHex action
                             amount walletAddress publicKeyHex)))) /\
    length (builds (fst (run w (submitCounterTransaction CONTRACT_ADDRESS toHex
                                  action amount walletAddress publicKeyHex)))) = 1%nat /\
    Forall (calls_entry_point (getCounterFunction CONTRACT_ADDRESS action) amount)
      (builds (fst (run w (submitCounterTransactionNative CONTRACT_ADDRESS action
                             amount walletAddress)))).
Proof.
  intros. repeat split.
  - apply custodial_targets.
  - destruct (custodial_builds_once CONTRACT_ADDRESS toHex w action amount
                walletAddress publicKeyHex) as [r ->].
    reflexivity.
  - apply native_targets.
Qed.

(** ** The read path (C5) *)

(** C5. [fetchCounterValue] always resolves: to [Number(result[0])] when
    the view call resolves to [result], and to [null] when the view call
    throws, whatever it throws; it never rejects. *)
Theorem fetchCounterValue_resolves_number_or_null :
  forall CONTRACT_ADDRESS w address,
    snd (run w (fetchCounterValue CONTRACT_ADDRESS address))
    = match answer w _ (view {| view_function :=
                                  CONTRACT_ADDRESS ++ "::counter::get_counter";
                                view_typeArguments := [];
                                view_functionArguments := [address] |}) [] with
      | Resolved result => Resolved (Some (Number w (first result)))
      | Rejected _ => Resolved None
      end /\
    exists r, snd (run w (fetchCounterValue CONTRACT_ADDRESS address)) = Resolved r.
Proof.
  intros. explore; split; eauto.
Qed.

(** ** The wallet-address guard (C9) *)

(** C9. With an empty wallet address the native flow throws
    "No wallet address provided" having made no external call at all: the
    trace holds the error log and nothing else. The custodial flow has no
    such guard: with an empty wallet address its first step is the builder
    call with the empty sender, and where the world goes along it returns
    the hash. *)
Theorem empty_wallet_address_guard :
  forall CONTRACT_ADDRESS toHex w action amount publicKeyHex,
    run w (submitCounterTransactionNative CONTRACT_ADDRESS action amount "")
    = ([Console level_error
          [LString ("Error submitting " ++ action_text action
                    ++ " transaction with native wallet:");
           LThrown (Error "No wallet address provided")]],
       Rejected (Error "No wallet address provided")) /\
    (exists r rest,
       fst (run w (submitCounterTransaction CONTRACT_ADDRESS toHex action amount
                     "" publicKeyHex))
       = Called (build_simple
                   {| sender := inl "";
                      withFeePayer := true;
                      data := {| function := getCounterFunction CONTRACT_ADDRESS action;
                                 typeArguments := Some [];
                                 functionArguments := [amount] |};
                      options := None |}) r :: rest) /\
    snd (run (Demo.accepting (VString "0xdeadbeef") true)
           (submitCounterTransaction CONTRACT_ADDRESS toHex action amount
              "" publicKeyHex))
    = Resolved (VString "0xdeadbeef").
Proof.
  intros. split; [reflexivity | split].
  - explore; eexists; eexists; reflexivity.
  - reflexivity.
Qed.

(** ** A sponsorship reply without a hash (C10) *)

(** C10. In the native flow, when the sponsorship backend answers with a
    success status and a body whose [transactionHash] is missing or falsy,
    the flow throws "Unable to get transaction hash from backend" and never
    calls [waitForTransaction]. *)
Theorem native_missing_hash_never_waits :
  forall CONTRACT_ADDRESS w action amount walletAddress tr out,
    run w (submitCounterTransactionNative CONTRACT_ADDRESS action amount
             walletAddress) = (tr, out) ->
    forall url init response result h,
      In (url, init, Resolved response) (fetches tr) ->
      ok response = true ->
      json response = Resolved result ->
      get_property result "transactionHash" = Resolved h ->
      truthy h = false ->
      out = Rejected (Error "Unable to get transaction hash from backend") /\
      waits tr = [].
Proof.
  intros CONTRACT_ADDRESS w action amount walletAddress tr out.
  explore; finished; intros url init response result h Hin Hok Hjson Hget Hh;
    members; split; congruence.
Qed.

Lemma native_missing_hash_never_waits_witness :
  snd (run (Demo.world 200 (Resolved (VObject [])) true)
         (submitCounterTransactionNative Demo.contract increment (Num 5) "0xABC"))
  = Rejected (Error "Unable to get transaction hash from backend") /\
  waits (fst (run (Demo.world 200 (Resolved (VObject [])) true)
                (submitCounterTransactionNative Demo.contract increment (Num 5)
                   "0xABC"))) = [].
Proof.
  apply (native_missing_hash_never_waits Demo.contract
           (Demo.world 200 (Resolved (VObject [])) true)
           increment (Num 5) "0xABC" _ _ eq_refl
           sponsor_url (sponsor_request "0x01" "0x02")
           {| status := 200; json := Resolved (VObject []) |}
           (VObject []) VUndefined).
  - cbn. left. reflexivity.
  - reflexivity.
  - reflexivity.
  - reflexivity.
  - reflexivity.
Defined.

(** ** The message of a refused sponsorship (C3) *)

(** The claim as worded fails where [details] is present but empty: the
    message is then the fallback, not the field. *)
Lemma refused_with_empty_details_counterexample :
  let reply := VObject [("details", VString "")] in
  let out := snd (run (Demo.refusing reply)
                    (submitCounterTransaction Demo.contract Demo.hex
                       increment (Num 5) "0xABC" "0x00")) in
  get_property reply "details" = Resolved (VString "") /\
  out = Rejected (Error "Failed to sponsor transaction") /\
  out <> Rejected (Error "").
Proof. cbn. repeat split. discriminate. Qed.

Section Refusal.
Variable CONTRACT_ADDRESS : string.
Variable toHex : bytes -> string.
Variable w : World.
Variables (action : CounterAction) (amount : number).
Variables (walletAddress publicKeyHex : string).

Lemma custodial_surfaces_details :
  surfaces_details w (submitCounterTransaction CONTRACT_ADDRESS toHex action
                      amount walletAddress publicKeyHex).
Proof.
  intros tr out. explore; finished;
    intros url init response error details Hin Hok Hjson Hget;
    members; unfold fallback_message; congruence.
Qed.

Lemma native_surfaces_details :
  surfaces_details w (submitCounterTransactionNative CONTRACT_ADDRESS action
                      amount walletAddress).
Proof.
  intros tr out. explore; finished;
    intros url init response error details Hin Hok Hjson Hget;
    members; unfold fallback_message; congruence.
Qed.
End Refusal.

Lemma new_Error_string render s :
  s <> "" ->
  new_Error render (js_or (VString s) (VString fallback_message)) = Error s.
Proof.
  intros Hs. unfold js_or. cbn.
  destruct (String.eqb_spec s ""); [contradiction | reflexivity].
Qed.

Lemma new_Error_falsy render details :
  truthy details = false ->
  new_Error render (js_or details (VString fallback_message))
  = Error fallback_message.
Proof. intros Hd. unfold js_or. rewrite Hd. reflexivity. Qed.

(** C3, as the code has it. When the sponsorship response is not ok and its
    body parses to a value whose [details] can be read, either flow throws
    an [Error] whose message is [details] when that is a non-empty string,
    and "Failed to sponsor transaction" when [details] is absent, empty or
    otherwise falsy; with [details] a string or absent the message is never
    empty. *)
Theorem refused_sponsorship_message :
  forall CONTRACT_ADDRESS toHex w action amount walletAddress publicKeyHex m,
    m = submitCounterTransaction CONTRACT_ADDRESS toHex action amount
          walletAddress publicKeyHex \/
    m = submitCounterTransactionNative CONTRACT_ADDRESS action amount
          walletAddress ->
    forall tr out, run w m = (tr, out) ->
    forall url init response error details,
      In (url, init, Resolved response) (fetches tr) ->
      ok response = false ->
      json response = Resolved error ->
      get_property error "details" = Resolved details ->
      (forall s, details = VString s -> s <> "" -> out = Rejected (Error s)) /\
      (truthy details = false ->
         out = Rejected (Error "Failed to sponsor transaction")) /\
      (details = VUndefined \/ (exists s, details = VString s) ->
         exists message, out = Rejected (Error message) /\ message <> "").
Proof.
  intros C toHex w action amount walletAddress publicKeyHex m Hm tr out Hrun
         url init response error details Hin Hok Hjson Hget.
  assert (Hout : out = Rejected (new_Error (Number_toString w)
                                   (js_or details (VString fallback_message)))).
  { destruct Hm as [-> | ->].
    - eapply custodial_surfaces_details; eassumption.
    - eapply native_surfaces_details; eassumption. }
  subst out. repeat split.
  - intros s -> Hs. rewrite new_Error_string by assumption. reflexivity.
  - intros Hd. rewrite new_Error_falsy by assumption. reflexivity.
  - intros [-> | [s ->]].
    + exists fallback_message. split; [reflexivity | discriminate].
    + destruct (String.eqb_spec s "") as [-> | Hs].
      * exists fallback_message. split; [reflexivity | discriminate].
      * exists s. rewrite new_Error_string by assumption. split; auto.
Qed.

Lemma refused_sponsorship_message_witness :
  let out := snd (run (Demo.refusing
                         (VObject [("details", VString "insufficient balance")]))
                    (submitCounterTransaction Demo.contract Demo.hex
                       increment (Num 5) "0xABC" "0x00")) in
  out = Rejected (Error "insufficient balance").
Proof.
  refine (proj1 (refused_sponsorship_message Demo.contract Demo.hex
                   (Demo.refusing
                      (VObject [("details", VString "insufficient balance")]))
                   increment (Num 5) "0xABC" "0x00" _ (or_introl eq_refl)
                   _ _ eq_refl
                   sponsor_url (sponsor_request "0x01" "0x02")
                   {| status := 500;
                      json := Resolved (VObject [("details",
                                                  VString "insufficient balance")]) |}
                   (VObject [("details", VString "insufficient balance")])
                   (VString "insufficient balance") _ eq_refl eq_refl eq_refl)
            "insufficient balance" eq_refl _).
  - cbn. left. reflexivity.
  - discriminate.
Defined.

(** ** Public-key normalisation (C4) *)

(** Only one prefix is stripped. A string that carries [0x] twice is not a
    hex key, and the normalisation is not meant for it. *)
Example doubly_prefixed_string :
  hex_string (strip0x "0x0x") = false /\
  cleanPublicKey "0x0x" = "0x" /\
  cleanPublicKey (cleanPublicKey "0x0x") = "".
Proof. cbn. repeat split. Qed.

Lemma slice_length n : forall s, String.length (slice n s) = String.length s - n.
Proof.
  induction n as [| n IH]; intros s.
  - simpl. lia.
  - destruct s as [| c rest]; simpl; [reflexivity | apply IH].
Qed.

Lemma hex_string_slice n : forall s,
  hex_string s = true -> hex_string (slice n s) = true.
Proof.
  induction n as [| n IH]; intros s Hs; [exact Hs |].
  destruct s as [| c rest]; simpl in *; [reflexivity |].
  apply andb_true_iff in Hs. apply IH, Hs.
Qed.

Lemma strip0x_unprefixed s : startsWith s "0x" = false -> strip0x s = s.
Proof. intros H. unfold strip0x. rewrite H. reflexivity. Qed.

Lemma hex_string_unprefixed s : hex_string s = true -> startsWith s "0x" = false.
Proof.
  destruct s as [| a [| b rest]]; cbn [startsWith hex_string]; intros Hs.
  - reflexivity.
  - apply andb_false_r.
  - destruct (Ascii.eqb_spec b "x") as [-> | _].
    + change (is_hex_digit "x") with false in Hs.
      rewrite andb_false_r in Hs. discriminate Hs.
    + apply andb_false_r.
Qed.

Lemma cleanPublicKey_never_33_bytes s : String.length (cleanPublicKey s) <> 66.
Proof.
  unfold cleanPublicKey.
  destruct (Nat.eqb_spec (String.length (strip0x s)) 66) as [E | E].
  - rewrite slice_length, E. discriminate.
  - exact E.
Qed.

Lemma cleanPublicKey_hex s :
  hex_string (strip0x s) = true -> hex_string (cleanPublicKey s) = true.
Proof.
  intros H. unfold cleanPublicKey.
  destruct (String.length (strip0x s) =? 66)%nat; [apply hex_string_slice |];
    exact H.
Qed.

(** A string without the prefix that is not 66 characters long is left as
    it is. *)
Lemma cleanPublicKey_fixed s :
  startsWith s "0x" = false -> String.length s <> 66 -> cleanPublicKey s = s.
Proof.
  intros Hp Hl. unfold cleanPublicKey. rewrite (strip0x_unprefixed s Hp).
  destruct (Nat.eqb_spec (String.length s) 66); [contradiction | reflexivity].
Qed.

Lemma custodial_key_normalised CONTRACT_ADDRESS toHex w action amount
    walletAddress publicKeyHex :
  Forall (fun k => fst k = cleanPublicKey publicKeyHex)
    (keys_constructed
       (fst (run w (submitCounterTransaction CONTRACT_ADDRESS toHex action amount
                      walletAddress publicKeyHex)))).
Proof. explore; repeat constructor. Qed.

(** C4. Public-key hex normalisation in the custodial flow is idempotent:
    stripping [0x] from a string that does not start with it is a no-op,
    and on a hex public key (hexadecimal digits after the optional prefix)
    normalising twice is normalising once; a key of 66 hex characters after
    prefix stripping (33 bytes) loses its first two characters and is left
    with 64 (32 bytes); and [Ed25519PublicKey] is constructed from the
    normalised string only. *)
Theorem public_key_normalisation :
  (forall s, startsWith s "0x" = false -> strip0x s = s) /\
  (forall s, hex_string (strip0x s) = true ->
     cleanPublicKey (cleanPublicKey s) = cleanPublicKey s) /\
  (forall s, String.length (strip0x s) = 66 ->
     cleanPublicKey s = slice 2 (strip0x s) /\
     String.length (cleanPublicKey s) = 64) /\
  (forall CONTRACT_ADDRESS toHex w action amount walletAddress publicKeyHex,
     Forall (fun k => fst k = cleanPublicKey publicKeyHex)
       (keys_constructed
          (fst (run w (submitCounterTransaction CONTRACT_ADDRESS toHex action
                         amount walletAddress publicKeyHex))))).
Proof.
  split; [exact strip0x_unprefixed | split; [| split]].
  - intros s Hs. apply cleanPublicKey_fixed.
    + apply hex_string_unprefixed, cleanPublicKey_hex, Hs.
    + apply cleanPublicKey_never_33_bytes.
  - intros s Hl.
    assert (E : cleanPublicKey s = slice 2 (strip0x s)).
    { unfold cleanPublicKey. rewrite Hl. reflexivity. }
    split; [exact E |]. rewrite E, slice_length, Hl. reflexivity.
  - exact custodial_key_normalised.
Qed.

Lemma public_key_normalisation_witness :
  let key := "0x00a1b2c3d4e5f60718293a4b5c6d7e8f90a1b2c3d4e5f60718293a4b5c6d7e8f90" in
  strip0x "a1b2" = "a1b2" /\
  cleanPublicKey (cleanPublicKey key) = cleanPublicKey key /\
  String.length (cleanPublicKey key) = 64.
Proof.
  destruct public_key_normalisation as [Hstrip [Hidem [Hdrop _]]].
  split; [| split].
  - apply Hstrip. reflexivity.
  - apply Hidem. reflexivity.
  - apply Hdrop. reflexivity.
Defined.

(** ** Fee payer and expiration (C6) *)

(** The custodial flow asks for its transaction without an expiration. *)
Lemma custodial_sets_no_expiration_counterexample :
  exists req r,
    builds (fst (run (Demo.accepting (VString "0xdeadbeef") true)
                   (submitCounterTransaction Demo.contract Demo.hex
                      increment (Num 5) "0xABC" "0x00"))) = [(req, r)] /\
    options req = None /\
    forall ms, ~ expires_after 5 ms req.
Proof.
  eexists. eexists. split; [reflexivity |]. split; [reflexivity |].
  intros ms H. discriminate H.
Qed.

(** C6, as the code has it. Every transaction that either flow asks the
    builder for has the fee-payer flag set. The native flow reads the clock
    once and asks for an expiration of [floor(now / 1000) + 5 * 60]
    seconds, which lies strictly after the build time [now] (milliseconds);
    the custodial flow passes no options, so no expiration of its own. *)
Theorem fee_payer_and_expiration :
  forall CONTRACT_ADDRESS toHex w action amount walletAddress publicKeyHex,
    let custodial := fst (run w (submitCounterTransaction CONTRACT_ADDRESS toHex
                                   action amount walletAddress publicKeyHex)) in
    let native := fst (run w (submitCounterTransactionNative CONTRACT_ADDRESS
                                action amount walletAddress)) in
    Forall (fun b => withFeePayer (fst b) = true /\ options (fst b) = None)
      (builds custodial) /\
    length (builds custodial) = 1%nat /\
    Forall (fun b => withFeePayer (fst b) = true /\
                     exists ms, clock_readings native = [ms] /\
                                expires_after 5 ms (fst b) /\
                                (ms < 1000 * (ms / 1000 + 5 * 60))%Z)
      (builds native).
Proof.
  intros C toHex w action amount walletAddress publicKeyHex custodial native.
  subst custodial native. split; [| split].
  - destruct (custodial_builds_once C toHex w action amount walletAddress
                publicKeyHex) as [r ->].
    repeat constructor.
  - destruct (custodial_builds_once C toHex w action amount walletAddress
                publicKeyHex) as [r ->].
    reflexivity.
  - assert (Hlater : forall ms, (ms < 1000 * (ms / 1000 + 5 * 60))%Z).
    { intros ms. pose proof (Z.mul_succ_div_gt ms 1000 eq_refl). lia. }
    explore; repeat constructor;
      eexists; (split; [reflexivity | split; [reflexivity | apply Hlater]]).
Qed.

(** ** One sponsorship request, no retry (C7) *)

(** A call that fails before the sponsorship stage sends no request. *)
Lemma empty_address_sends_no_request_counterexample :
  let tr := fst (run (Demo.accepting (VString "0xdeadbeef") true)
                   (submitCounterTransactionNative Demo.contract increment
                      (Num 5) "")) in
  sponsor_posts tr = [] /\ length (sponsor_posts tr) <> 1%nat.
Proof. cbn. split; [reflexivity | discriminate]. Qed.

(** The signer's signature alone does not bring a request about: when the
    SDK refuses the public key, nothing is sent. *)
Example key_refused_sends_no_request :
  let tr := fst (run Scenario.key_refused
                   (submitCounterTransaction Demo.contract Demo.hex increment
                      (Num 5) "0xABC" "0x00")) in
  digests_signed tr
  = [({| address := "0xABC"; chainType := "aptos"; hash := "0x00" |},
      Resolved {| signature := "0xfeed" |})] /\
  signatures_constructed tr = [] /\
  fetches tr = [].
Proof. cbn. repeat split. Qed.

Lemma custodial_single_attempt CONTRACT_ADDRESS toHex w action amount
    walletAddress publicKeyHex :
  single_attempt custodial_authenticator_built
    (run w (submitCounterTransaction CONTRACT_ADDRESS toHex action amount
              walletAddress publicKeyHex)).
Proof. explore; attempt. Qed.

Lemma native_single_attempt CONTRACT_ADDRESS w action amount walletAddress :
  single_attempt wallet_signed_with_authenticator
    (run w (submitCounterTransactionNative CONTRACT_ADDRESS action amount
              walletAddress)).
Proof. explore; attempt. Qed.

(** C7, as the code has it. Either flow sends at most one request, and it
    is a POST to the sponsorship endpoint; it sends exactly one if and only
    if the sender's authenticator has been obtained (in the custodial flow:
    the signer returned a signature and the SDK constructed both the
    public-key object and the signature object; in the native flow: the
    wallet returned an authenticator), and none otherwise; and when that
    one attempt fails (no response, or a response that is not ok) the flow
    throws without a second request and without waiting for
    confirmation. *)
Theorem single_sponsorship_request_no_retry :
  forall CONTRACT_ADDRESS toHex w action amount walletAddress publicKeyHex,
    single_attempt custodial_authenticator_built
      (run w (submitCounterTransaction CONTRACT_ADDRESS toHex action amount
                walletAddress publicKeyHex)) /\
    single_attempt wallet_signed_with_authenticator
      (run w (submitCounterTransactionNative CONTRACT_ADDRESS action amount
                walletAddress)).
Proof.
  intros. split.
  - apply custodial_single_attempt.
  - apply native_single_attempt.
Qed.

Lemma single_sponsorship_request_no_retry_witness :
  let r := run (Demo.refusing (VObject [("details", VString "insufficient balance")]))
             (submitCounterTransaction Demo.contract Demo.hex increment (Num 5)
                "0xABC" "0x00") in
  length (sponsor_posts (fst r)) = 1%nat /\
  (exists e, snd r = Rejected e) /\ waits (fst r) = [].
Proof.
  intros r.
  destruct (proj1 (single_sponsorship_request_no_retry Demo.contract Demo.hex
                     (Demo.refusing
                        (VObject [("details", VString "insufficient balance")]))
                     increment (Num 5) "0xABC" "0x00"))
    as [_ [_ [[Hone _] Hfail]]].
  split.
  - apply Hone. repeat split.
    + exists {| address := "0xABC"; chainType := "aptos"; hash := "0x00" |},
             {| signature := "0xfeed" |}.
      cbn. left. reflexivity.
    + exists "00", {| key_bytes := [] |}. cbn. left. reflexivity.
    + exists "feed", {| signature_bytes := [] |}. cbn. left. reflexivity.
  - apply (Hfail sponsor_url (sponsor_request "0x01" "0x02")
             (Resolved {| status := 500;
                          json := Resolved (VObject [("details",
                                     VString "insufficient balance")]) |})).
    + cbn. left. reflexivity.
    + reflexivity.
Defined.

(** ** What the custodial signer is sent and what is made of its reply (C8) *)

(** C8. In the custodial flow the message sent to the external signer is
    [0x] followed by [toHex] of the signing message generated from the
    unsigned transaction that was built, accompanied by the wallet address
    and the chain type ['aptos']; once the signer has replied, the key
    object is constructed from the normalised public key, then the
    signature object from the returned signature with its [0x] prefix
    stripped, and the [AccountAuthenticatorEd25519] made of the two is
    what is serialised into the request sent for sponsorship. Each step is
    taken as soon as the one before it resolved, and a signer request or a
    sponsorship request that appears in a trace is the one described. *)
Theorem custodial_signing_message_and_authenticator :
  forall CONTRACT_ADDRESS toHex w action amount walletAddress publicKeyHex tr out,
    run w (submitCounterTransaction CONTRACT_ADDRESS toHex action amount
             walletAddress publicKeyHex) = (tr, out) ->
    (exists built,
       builds tr
       = [({| sender := inl walletAddress;
              withFeePayer := true;
              data := {| function := getCounterFunction CONTRACT_ADDRESS action;
                         typeArguments := Some [];
                         functionArguments := [amount] |};
              options := None |}, built)] /\
       forall rawTxn, built = Resolved rawTxn ->
       exists signer_reply,
         digests_signed tr
         = [({| address := walletAddress;
                chainType := "aptos";
                hash := "0x" ++ toHex (generateSigningMessageForTransaction
                                         w rawTxn) |}, signer_reply)] /\
         forall signed, signer_reply = Resolved signed ->
         exists key,
           keys_constructed tr = [(cleanPublicKey publicKeyHex, key)] /\
           forall publicKey, key = Resolved publicKey ->
           exists constructed,
             signatures_constructed tr
             = [(strip0x (signature signed), constructed)] /\
             forall sig, constructed = Resolved sig ->
             exists response,
               fetches tr
               = [(sponsor_url,
                   sponsor_request
                     (transaction_bcsToHex w
                        (new_SimpleTransaction (rawTransaction rawTxn)))
                     (authenticator_bcsToHex w
                        (AccountAuthenticatorEd25519 publicKey sig)),
                   response)]) /\
    (forall params reply, In (params, reply) (digests_signed tr) ->
       exists req rawTxn,
         builds tr = [(req, Resolved rawTxn)] /\
         params = {| address := walletAddress;
                     chainType := "aptos";
                     hash := "0x" ++ toHex (generateSigningMessageForTransaction
                                              w rawTxn) |}) /\
    (forall url init reply, In (url, init, reply) (fetches tr) ->
       exists req rawTxn params signed publicKey sig,
         builds tr = [(req, Resolved rawTxn)] /\
         digests_signed tr = [(params, Resolved signed)] /\
         keys_constructed tr
           = [(cleanPublicKey publicKeyHex, Resolved publicKey)] /\
         signatures_constructed tr
           = [(strip0x (signature signed), Resolved sig)] /\
         init = sponsor_request
                  (transaction_bcsToHex w
                     (new_SimpleTransaction (rawTransaction rawTxn)))
                  (authenticator_bcsToHex w
                     (AccountAuthenticatorEd25519 publicKey sig))).
Proof.
  intros C toHex w action amount walletAddress publicKeyHex tr out.
  explore; finished;
    (split; [onward
            | split; [intros params reply Hin | intros url init reply Hin];
              members; repeat eexists]).
Qed.

Lemma custodial_signing_message_and_authenticator_witness :
  exists publicKey sig response,
    keys_constructed
      (fst (run (Demo.accepting (VString "0xdeadbeef") true)
              (submitCounterTransaction Demo.contract Demo.hex increment
                 (Num 5) "0xABC" "0x00")))
    = [("00", Resolved publicKey)] /\
    signatures_constructed
      (fst (run (Demo.accepting (VString "0xdeadbeef") true)
              (submitCounterTransaction Demo.contract Demo.hex increment
                 (Num 5) "0xABC" "0x00")))
    = [("feed", Resolved sig)] /\
    fetches
      (fst (run (Demo.accepting (VString "0xdeadbeef") true)
              (submitCounterTransaction Demo.contract Demo.hex increment
                 (Num 5) "0xABC" "0x00")))
    = [(sponsor_url,
        sponsor_request "0x01"
          (authenticator_bcsToHex (Demo.accepting (VString "0xdeadbeef") true)
             (AccountAuthenticatorEd25519 publicKey sig)),
        response)].
Proof.
  destruct (proj1 (custodial_signing_message_and_authenticator
                     Demo.contract Demo.hex
                     (Demo.accepting (VString "0xdeadbeef") true)
                     increment (Num 5) "0xABC" "0x00" _ _ eq_refl))
    as [built [Hbuilt Hsigner]].
  destruct (Hsigner (Demo.built
                       {| sender := inl "0xABC";
                          withFeePayer := true;
                          data := {| function := getCounterFunction Demo.contract
                                                   increment;
                                     typeArguments := Some [];
                                     functionArguments := [Num 5] |};
                          options := None |}))
    as [signer_reply [Hdigest Hkey]].
  { cbn in Hbuilt. inversion Hbuilt; subst. reflexivity. }
  destruct (Hkey {| signature := "0xfeed" |}) as [key [Hkeys Hsignature]].
  { cbn in Hdigest. inversion Hdigest; subst. reflexivity. }
  destruct (Hsignature {| key_bytes := [] |}) as [constructed [Hsigs Hfetch]].
  { cbn in Hkeys. inversion Hkeys; subst. reflexivity. }
  destruct (Hfetch {| signature_bytes := [] |}) as [response Hsent].
  { cbn in Hsigs. inversion Hsigs; subst. reflexivity. }
  exists {| key_bytes := [] |}, {| signature_bytes := [] |}, response.
  split; [reflexivity | split; [reflexivity | exact Hsent]].
Defined.

(** * Further properties of the flows *)

(** ** Entry points are told apart *)

Lemma append_cancel_l (p : string) : forall a b, p ++ a = p ++ b -> a = b.
Proof.
  induction p as [| c p IH]; intros a b H; simpl in H.
  - exact H.
  - apply IH. congruence.
Qed.

(** X1. Whatever the contract address, the two actions never share an
    entry point: [getCounterFunction] is injective in the action. *)
Theorem getCounterFunction_injective :
  forall CONTRACT_ADDRESS a b,
    getCounterFunction CONTRACT_ADDRESS a = getCounterFunction CONTRACT_ADDRESS b ->
    a = b.
Proof.
  intros C a b H. unfold getCounterFunction in H.
  apply append_cancel_l in H.
  destruct a, b; solve [reflexivity | discriminate H].
Qed.

Lemma getCounterFunction_injective_witness :
  increment = increment.
Proof.
  apply (getCounterFunction_injective Demo.contract increment increment).
  reflexivity.
Defined.

(** ** Errors are logged once and rethrown as they are *)

Lemma custodial_logs_and_rethrows CONTRACT_ADDRESS toHex w action amount
    walletAddress publicKeyHex :
  logs_and_rethrows (custodial_log_prefix action)
    (run w (submitCounterTransaction CONTRACT_ADDRESS toHex action amount
              walletAddress publicKeyHex)).
Proof. explore; rethrown. Qed.

Lemma native_logs_and_rethrows CONTRACT_ADDRESS w action amount walletAddress :
  logs_and_rethrows (native_log_prefix action)
    (run w (submitCounterTransactionNative CONTRACT_ADDRESS action amount
              walletAddress)).
Proof. explore; rethrown. Qed.

(** X2. When a submission flow is rejected, the error it is rejected with
    was passed to [console.error] exactly once, behind the flow's own
    message, and that log is the last thing the flow did; a flow that
    resolves logs no error. *)
Theorem rejection_logged_once_and_rethrown :
  forall CONTRACT_ADDRESS toHex w action amount walletAddress publicKeyHex,
    logs_and_rethrows (custodial_log_prefix action)
      (run w (submitCounterTransaction CONTRACT_ADDRESS toHex action amount
                walletAddress publicKeyHex)) /\
    logs_and_rethrows (native_log_prefix action)
      (run w (submitCounterTransactionNative CONTRACT_ADDRESS action amount
                walletAddress)).
Proof.
  intros. split.
  - apply custodial_logs_and_rethrows.
  - apply native_logs_and_rethrows.
Qed.

Lemma rejection_logged_once_and_rethrown_witness :
  error_logs (fst (run Scenario.signer_refuses
                     (submitCounterTransaction Demo.contract Demo.hex decrement
                        (Num 2) "0xABC" "0x00")))
  = [[LString "Error submitting decrement transaction:";
      LThrown (Error "User rejected the request")]].
Proof.
  apply (proj1 (proj1 (rejection_logged_once_and_rethrown Demo.contract Demo.hex
                         Scenario.signer_refuses decrement (Num 2) "0xABC" "0x00"))
           (Error "User rejected the request") eq_refl).
Defined.

(** ** A failing stage ends the flow *)

Lemma custodial_fails_fast CONTRACT_ADDRESS toHex w action amount
    walletAddress publicKeyHex :
  fails_fast (custodial_log_prefix action)
    (run w (submitCounterTransaction CONTRACT_ADDRESS toHex action amount
              walletAddress publicKeyHex)).
Proof. explore; failing. Qed.

Lemma native_fails_fast CONTRACT_ADDRESS w action amount walletAddress :
  fails_fast (native_log_prefix action)
    (run w (submitCounterTransactionNative CONTRACT_ADDRESS action amount
              walletAddress)).
Proof. explore; failing. Qed.

(** X3. When any external call of a submission flow is rejected (address
    parsing, build, signer or wallet, key or signature construction, the
    sponsorship request, the confirmation wait), the flow is rejected with
    that very error and makes no further call: all that follows in the
    trace is the error log. *)
Theorem rejected_call_ends_the_flow :
  forall CONTRACT_ADDRESS toHex w action amount walletAddress publicKeyHex,
    fails_fast (custodial_log_prefix action)
      (run w (submitCounterTransaction CONTRACT_ADDRESS toHex action amount
                walletAddress publicKeyHex)) /\
    fails_fast (native_log_prefix action)
      (run w (submitCounterTransactionNative CONTRACT_ADDRESS action amount
                walletAddress)).
Proof.
  intros. split.
  - apply custodial_fails_fast.
  - apply native_fails_fast.
Qed.

Lemma rejected_call_ends_the_flow_witness :
  snd (run Scenario.signer_refuses
         (submitCounterTransaction Demo.contract Demo.hex decrement (Num 2)
            "0xABC" "0x00"))
  = Rejected (Error "User rejected the request") /\
  [Console level_error [LString "Error submitting decrement transaction:";
                        LThrown (Error "User rejected the request")]]
  = [Console level_error [LString (custodial_log_prefix decrement);
                          LThrown (Error "User rejected the request")]].
Proof.
  apply (proj1 (rejected_call_ends_the_flow Demo.contract Demo.hex
                  Scenario.signer_refuses decrement (Num 2) "0xABC" "0x00")
           (Error "User rejected the request")).
  reflexivity.
Defined.

(** ** The order of the stages *)

Lemma custodial_follows_pipeline CONTRACT_ADDRESS toHex w action amount
    walletAddress publicKeyHex :
  follows custodial_pipeline
    (run w (submitCounterTransaction CONTRACT_ADDRESS toHex action amount
              walletAddress publicKeyHex)).
Proof. explore; ordered. Qed.

Lemma native_follows_pipeline CONTRACT_ADDRESS w action amount walletAddress :
  follows native_pipeline
    (run w (submitCounterTransactionNative CONTRACT_ADDRESS action amount
              walletAddress)).
Proof. explore; ordered. Qed.

(** X4. The external calls of a flow come in a fixed order, each at most
    once: build, digest signing, key, signature, sponsorship, confirmation
    in the custodial flow; address parsing, build, wallet signing,
    sponsorship, confirmation in the native flow. A run stops somewhere
    along that line, and a run that resolves went through all of it. *)
Theorem stages_in_fixed_order :
  forall CONTRACT_ADDRESS toHex w action amount walletAddress publicKeyHex,
    follows custodial_pipeline
      (run w (submitCounterTransaction CONTRACT_ADDRESS toHex action amount
                walletAddress publicKeyHex)) /\
    follows native_pipeline
      (run w (submitCounterTransactionNative CONTRACT_ADDRESS action amount
                walletAddress)).
Proof.
  intros. split.
  - apply custodial_follows_pipeline.
  - apply native_follows_pipeline.
Qed.

Lemma stages_in_fixed_order_witness :
  stages (fst (run (Demo.accepting (VString "0xdeadbeef") true)
                 (submitCounterTransactionNative Demo.contract increment (Num 5)
                    "0xABC")))
  = native_pipeline.
Proof.
  apply (proj2 (proj2 (stages_in_fixed_order Demo.contract Demo.hex
                         (Demo.accepting (VString "0xdeadbeef") true)
                         increment (Num 5) "0xABC" "0x00"))
           (VString "0xdeadbeef") eq_refl).
Defined.

(** ** What the native flow sends for sponsorship *)

(** X5. In the native flow, a request that reaches the sponsorship
    endpoint carries the serialisation of the very transaction that the
    builder returned and the wallet signed, built for the address parsed
    from [walletAddress], together with the serialisation of the
    authenticator that the wallet handed back. *)
Theorem native_submits_what_the_wallet_signed :
  forall CONTRACT_ADDRESS w action amount walletAddress tr out,
    run w (submitCounterTransactionNative CONTRACT_ADDRESS action amount
             walletAddress) = (tr, out) ->
    forall url init reply, In (url, init, reply) (fetches tr) ->
      exists senderAddress req simpleTx authenticator,
        addresses_parsed tr = [(walletAddress, Resolved senderAddress)] /\
        builds tr = [(req, Resolved simpleTx)] /\
        sender req = inr senderAddress /\
        wallet_signed tr
          = [(simpleTx, Resolved (WithAuthenticator authenticator))] /\
        url = sponsor_url /\
        init = sponsor_request (transaction_bcsToHex w simpleTx)
                 (authenticator_bcsToHex w authenticator).
Proof.
  intros C w action amount walletAddress tr out.
  explore; finished; intros url init reply Hin; members; repeat eexists.
Qed.

Lemma native_submits_what_the_wallet_signed_witness :
  exists senderAddress req simpleTx authenticator,
    let tr := fst (run (Demo.accepting (VString "0xdeadbeef") true)
                     (submitCounterTransactionNative Demo.contract increment
                        (Num 5) "0xABC")) in
    addresses_parsed tr = [("0xABC", Resolved senderAddress)] /\
    builds tr = [(req, Resolved simpleTx)] /\
    sender req = inr senderAddress /\
    wallet_signed tr = [(simpleTx, Resolved (WithAuthenticator authenticator))] /\
    sponsor_url = sponsor_url /\
    sponsor_request "0x01" "0x02"
    = sponsor_request
        (transaction_bcsToHex (Demo.accepting (VString "0xdeadbeef") true) simpleTx)
        (authenticator_bcsToHex (Demo.accepting (VString "0xdeadbeef") true)
           authenticator).
Proof.
  apply (native_submits_what_the_wallet_signed Demo.contract
           (Demo.accepting (VString "0xdeadbeef") true) increment (Num 5) "0xABC"
           _ _ eq_refl sponsor_url (sponsor_request "0x01" "0x02")
           (Resolved {| status := 200;
                        json := Resolved (VObject [("transactionHash",
                                                    VString "0xdeadbeef")]) |})).
  cbn. left. reflexivity.
Defined.

(** X6. In the native flow, a wallet reply without a usable authenticator
    stops the flow before anything is sent: the flow is rejected with what
    reading the authenticator threw and no request is made. *)
Theorem native_malformed_wallet_reply_sends_nothing :
  forall CONTRACT_ADDRESS w action amount walletAddress tr out,
    run w (submitCounterTransactionNative CONTRACT_ADDRESS action amount
             walletAddress) = (tr, out) ->
    forall tx complaint,
      In (tx, Resolved (Malformed complaint)) (wallet_signed tr) ->
      out = Rejected complaint /\ fetches tr = [] /\ waits tr = [].
Proof.
  intros C w action amount walletAddress tr out.
  explore; finished; intros tx' complaint' Hin; members;
    repeat split; congruence.
Qed.

Lemma native_malformed_wallet_reply_sends_nothing_witness :
  let r := run Scenario.wallet_reply_malformed
             (submitCounterTransactionNative Demo.contract increment (Num 5)
                "0xABC") in
  snd r = Rejected (TypeError "Cannot read properties of undefined (reading 'bcsToHex')")
  /\ fetches (fst r) = [] /\ waits (fst r) = [].
Proof.
  apply (native_malformed_wallet_reply_sends_nothing Demo.contract
           Scenario.wallet_reply_malformed increment (Num 5) "0xABC" _ _ eq_refl
           (Demo.built
              {| sender := inr Demo.an_address;
                 withFeePayer := true;
                 data := {| function := getCounterFunction Demo.contract increment;
                            typeArguments := None;
                            functionArguments := [Num 5] |};
                 options := Some {| expireTimestamp := Some 1700000300%Z |} |})).
  cbn. left. reflexivity.
Defined.

(** X7. In the native flow a non-empty wallet address passes the guard,
    whatever it holds: the first thing the flow does is hand it to
    [AccountAddress.from]. *)
Theorem native_nonempty_address_is_parsed_first :
  forall CONTRACT_ADDRESS w action amount walletAddress,
    walletAddress <> "" ->
    exists r rest,
      fst (run w (submitCounterTransactionNative CONTRACT_ADDRESS action amount
                    walletAddress))
      = Called (AccountAddress_from walletAddress) r :: rest.
Proof.
  intros C w action amount walletAddress Hne.
  explore; solve [contradiction | eexists; eexists; reflexivity].
Qed.

Lemma native_nonempty_address_is_parsed_first_witness :
  exists r rest,
    fst (run (Demo.accepting (VString "0xdeadbeef") true)
           (submitCounterTransactionNative Demo.contract increment (Num 5) " "))
    = Called (AccountAddress_from " ") r :: rest.
Proof.
  apply (native_nonempty_address_is_parsed_first Demo.contract
           (Demo.accepting (VString "0xdeadbeef") true) increment (Num 5) " ").
  discriminate.
Defined.

(** ** The hash that is waited for and returned *)

(** X8. The custodial flow has no guard on the hash: whatever
    [transactionHash] the body of the ok response reads, missing and falsy
    ones included, is what [waitForTransaction] is called with, and it is
    what the flow returns when that wait reports success. *)
Theorem custodial_waits_for_any_hash :
  forall CONTRACT_ADDRESS toHex w action amount walletAddress publicKeyHex tr out,
    run w (submitCounterTransaction CONTRACT_ADDRESS toHex action amount
             walletAddress publicKeyHex) = (tr, out) ->
    forall url init response result h,
      In (url, init, Resolved response) (fetches tr) ->
      ok response = true ->
      json response = Resolved result ->
      get_property result "transactionHash" = Resolved h ->
      exists confirmation,
        waits tr = [(h, confirmation)] /\
        (forall t, confirmation = Resolved t -> success t = true ->
           out = Resolved h).
Proof.
  intros C toHex w action amount walletAddress publicKeyHex tr out.
  explore; finished; intros url init response result h Hin Hok Hjson Hget;
    members; try congruence;
    (assert (h = a5) by congruence; subst h);
    (eexists; split; [reflexivity |]); intros t Ht Hs; members; congruence.
Qed.

Lemma custodial_waits_for_any_hash_witness :
  let r := run (Demo.world 200 (Resolved (VObject [])) true)
             (submitCounterTransaction Demo.contract Demo.hex increment (Num 5)
                "0xABC" "0x00") in
  exists confirmation,
    waits (fst r) = [(VUndefined, confirmation)] /\
    (forall t, confirmation = Resolved t -> success t = true ->
       snd r = Resolved VUndefined).
Proof.
  apply (custodial_waits_for_any_hash Demo.contract Demo.hex
           (Demo.world 200 (Resolved (VObject [])) true)
           increment (Num 5) "0xABC" "0x00" _ _ eq_refl
           sponsor_url (sponsor_request "0x01" "0x02")
           {| status := 200; json := Resolved (VObject []) |}
           (VObject []) VUndefined).
  - cbn. left. reflexivity.
  - reflexivity.
  - reflexivity.
  - reflexivity.
Defined.

Lemma custodial_hash_of_ok_response CONTRACT_ADDRESS toHex w action amount
    walletAddress publicKeyHex :
  hash_of_ok_response
    (run w (submitCounterTransaction CONTRACT_ADDRESS toHex action amount
              walletAddress publicKeyHex)).
Proof.
  unfold hash_of_ok_response. explore; intros h Hh;
    solve [discriminate Hh
          | inversion Hh; subst; repeat eexists; cbn; eauto].
Qed.

Lemma native_hash_of_ok_response CONTRACT_ADDRESS w action amount walletAddress :
  hash_of_ok_response
    (run w (submitCounterTransactionNative CONTRACT_ADDRESS action amount
              walletAddress)) /\
  forall h,
    snd (run w (submitCounterTransactionNative CONTRACT_ADDRESS action amount
                  walletAddress)) = Resolved h ->
    truthy h = true.
Proof.
  unfold hash_of_ok_response. explore; (split; intros h Hh);
    solve [discriminate Hh
          | inversion Hh; subst; repeat eexists; cbn; eauto
          | inversion Hh; subst; assumption].
Qed.

(** X9. A hash that either flow returns is the [transactionHash] read off
    the body of the one response the sponsorship endpoint gave, and that
    response was ok; in the native flow the returned hash is moreover
    truthy. *)
Theorem returned_hash_is_from_an_ok_response :
  forall CONTRACT_ADDRESS toHex w action amount walletAddress publicKeyHex,
    hash_of_ok_response
      (run w (submitCounterTransaction CONTRACT_ADDRESS toHex action amount
                walletAddress publicKeyHex)) /\
    hash_of_ok_response
      (run w (submitCounterTransactionNative CONTRACT_ADDRESS action amount
                walletAddress)) /\
    (forall h,
       snd (run w (submitCounterTransactionNative CONTRACT_ADDRESS action amount
                     walletAddress)) = Resolved h ->
       truthy h = true).
Proof.
  intros. split.
  - apply custodial_hash_of_ok_response.
  - apply native_hash_of_ok_response.
Qed.

Lemma returned_hash_is_from_an_ok_response_witness :
  truthy (VString "0xdeadbeef") = true.
Proof.
  apply (proj2 (proj2 (returned_hash_is_from_an_ok_response Demo.contract Demo.hex
                         (Demo.accepting (VString "0xdeadbeef") true)
                         increment (Num 5) "0xABC" "0x00"))
           (VString "0xdeadbeef")).
  reflexivity.
Defined.

(** ** The helper of the native flow *)

(** X10. [buildSignAndSponsorTransaction] returns as soon as the
    sponsorship endpoint has answered: it never waits for confirmation,
    never logs an error, and hands back whatever [transactionHash] the
    body of an ok response reads, falsy ones included. *)
Theorem buildSignAndSponsorTransaction_returns_before_confirmation :
  forall CONTRACT_ADDRESS w action amount walletAddress tr out,
    run w (buildSignAndSponsorTransaction CONTRACT_ADDRESS action amount
             walletAddress) = (tr, out) ->
    waits tr = [] /\
    error_logs tr = [] /\
    forall url init response result h,
      In (url, init, Resolved response) (fetches tr) ->
      ok response = true ->
      json response = Resolved result ->
      get_property result "transactionHash" = Resolved h ->
      out = Resolved h.
Proof.
  intros C w action amount walletAddress tr out.
  explore; finished; (split; [reflexivity | split; [reflexivity |]]);
    intros url init response result h Hin Hok Hjson Hget; members; congruence.
Qed.

Lemma buildSignAndSponsorTransaction_returns_before_confirmation_witness :
  let r := run (Demo.accepting (VString "") true)
             (buildSignAndSponsorTransaction Demo.contract increment (Num 5)
                "0xABC") in
  waits (fst r) = [] /\ error_logs (fst r) = [] /\ snd r = Resolved (VString "").
Proof.
  destruct (buildSignAndSponsorTransaction_returns_before_confirmation
              Demo.contract (Demo.accepting (VString "") true) increment (Num 5)
              "0xABC" _ _ eq_refl) as [Hwaits [Hlogs Hreturn]].
  split; [exact Hwaits | split; [exact Hlogs |]].
  apply (Hreturn sponsor_url (sponsor_request "0x01" "0x02")
           {| status := 200;
              json := Resolved (VObject [("transactionHash", VString "")]) |}
           (VObject [("transactionHash", VString "")]) (VString "")).
  - cbn. left. reflexivity.
  - reflexivity.
  - reflexivity.
  - reflexivity.
Defined.

(** ** A refusal whose body cannot be read *)

Lemma custodial_surfaces_unreadable_body CONTRACT_ADDRESS toHex w action amount
    walletAddress publicKeyHex :
  surfaces_unreadable_body
    (run w (submitCounterTransaction CONTRACT_ADDRESS toHex action amount
              walletAddress publicKeyHex)).
Proof. explore; unreadable. Qed.

Lemma native_surfaces_unreadable_body CONTRACT_ADDRESS w action amount
    walletAddress :
  surfaces_unreadable_body
    (run w (submitCounterTransactionNative CONTRACT_ADDRESS action amount
              walletAddress)).
Proof. explore; unreadable. Qed.

(** X11. When the sponsorship response is not ok and its body cannot be
    read for [details] (parsing it is rejected, or it parses to [null]),
    either flow is rejected with what the reading threw, not with the
    fallback message, and no confirmation wait is made. *)
Theorem unreadable_refusal_surfaces_read_error :
  forall CONTRACT_ADDRESS toHex w action amount walletAddress publicKeyHex,
    surfaces_unreadable_body
      (run w (submitCounterTransaction CONTRACT_ADDRESS toHex action amount
                walletAddress publicKeyHex)) /\
    surfaces_unreadable_body
      (run w (submitCounterTransactionNative CONTRACT_ADDRESS action amount
                walletAddress)).
Proof.
  intros. split.
  - apply custodial_surfaces_unreadable_body.
  - apply native_surfaces_unreadable_body.
Qed.

Lemma unreadable_refusal_surfaces_read_error_witness :
  let r := run Scenario.gateway_error
             (submitCounterTransaction Demo.contract Demo.hex increment (Num 5)
                "0xABC" "0x00") in
  snd r = Rejected (Thrown (VString "Unexpected token < in JSON")) /\
  waits (fst r) = [].
Proof.
  apply (proj1 (unreadable_refusal_surfaces_read_error Demo.contract Demo.hex
                  Scenario.gateway_error increment (Num 5) "0xABC" "0x00")
           sponsor_url (sponsor_request "0x01" "0x02")
           {| status := 502;
              json := Rejected (Thrown (VString "Unexpected token < in JSON")) |}).
  - cbn. left. reflexivity.
  - reflexivity.
  - left. reflexivity.
Defined.

(** ** The expiration window *)

(** X12. The expiration that the native flow asks for lies within the
    last second of the five minutes that follow the clock reading: more
    than 299 seconds and at most 300 seconds after it. *)
Theorem native_expiration_window :
  forall CONTRACT_ADDRESS w action amount walletAddress,
    let tr := fst (run w (submitCounterTransactionNative CONTRACT_ADDRESS action
                            amount walletAddress)) in
    Forall (fun b => exists ms t,
                       clock_readings tr = [ms] /\
                       options (fst b) = Some {| expireTimestamp := Some t |} /\
                       (ms + 299000 < 1000 * t <= ms + 300000)%Z)
      (builds tr).
Proof.
  intros C w action amount walletAddress tr. subst tr.
  assert (Hwindow : forall ms,
             (ms + 299000 < 1000 * (ms / 1000 + 300) <= ms + 300000)%Z).
  { intros ms.
    pose proof (Z.mul_succ_div_gt ms 1000 eq_refl).
    pose proof (Z.mul_div_le ms 1000 eq_refl). lia. }
  explore; repeat constructor;
    eexists; eexists; (split; [reflexivity | split; [reflexivity |]]);
    apply Hwindow.
Qed.

(** ** More on public-key normalisation *)

Lemma startsWith_length : forall p s,
  startsWith s p = true -> String.length p <= String.length s.
Proof.
  induction p as [| c p IH]; intros s H.
  - simpl. lia.
  - destruct s as [| d s]; simpl in H; [discriminate H |].
    apply andb_true_iff in H. destruct H as [_ H].
    apply IH in H. simpl. lia.
Qed.

Lemma slice_split n : forall s,
  n <= String.length s ->
  exists p, s = p ++ slice n s /\ String.length p = n.
Proof.
  induction n as [| n IH]; intros s Hn.
  - exists "". split; reflexivity.
  - destruct s as [| c s]; simpl in Hn; [lia |].
    destruct (IH s) as [p [Hs Hp]]; [lia |].
    exists (String c p). simpl. split; [congruence | lia].
Qed.

Lemma string_append_assoc (a b c : string) : (a ++ b) ++ c = a ++ (b ++ c).
Proof. induction a as [| x a IH]; simpl; [reflexivity | rewrite IH; reflexivity]. Qed.

Lemma string_length_append (a b : string) :
  String.length (a ++ b) = String.length a + String.length b.
Proof. induction a as [| x a IH]; simpl; [reflexivity | rewrite IH; reflexivity]. Qed.

Lemma strip0x_prefixed k : strip0x ("0x" ++ k) = k.
Proof. unfold strip0x. destruct k; reflexivity. Qed.

(** X13. A key reads the same with and without its prefix: when [k] does
    not itself start with [0x], normalising [0x] followed by [k] gives
    what normalising [k] gives. *)
Theorem cleanPublicKey_prefix_makes_no_difference :
  forall k, startsWith k "0x" = false ->
    cleanPublicKey ("0x" ++ k) = cleanPublicKey k.
Proof.
  intros k Hk. unfold cleanPublicKey.
  rewrite strip0x_prefixed, (strip0x_unprefixed k Hk). reflexivity.
Qed.

Lemma cleanPublicKey_prefix_makes_no_difference_witness :
  cleanPublicKey ("0x" ++ "a1b2") = cleanPublicKey "a1b2".
Proof.
  apply (cleanPublicKey_prefix_makes_no_difference "a1b2"). reflexivity.
Defined.

(** X14. Normalisation only ever drops leading characters: the normalised
    key is the input without its first 0, 2 or 4 characters, so the tail
    of the key is never altered. *)
Theorem cleanPublicKey_keeps_the_tail :
  forall s, exists dropped,
    s = dropped ++ cleanPublicKey s /\
    (String.length dropped = 0 \/ String.length dropped = 2 \/
     String.length dropped = 4).
Proof.
  intros s.
  assert (Hstrip : exists p, s = p ++ strip0x s /\
                             (String.length p = 0 \/ String.length p = 2)).
  { unfold strip0x. destruct (startsWith s "0x") eqn:E.
    - apply startsWith_length in E.
      destruct (slice_split 2 s E) as [p [Hs Hp]]. exists p. auto.
    - exists "". auto. }
  destruct Hstrip as [p [Hs Hp]].
  unfold cleanPublicKey.
  destruct (Nat.eqb_spec (String.length (strip0x s)) 66) as [E | E].
  - destruct (slice_split 2 (strip0x s)) as [q [Hq Hlq]]; [lia |].
    exists (p ++ q). split.
    + rewrite string_append_assoc, <- Hq. exact Hs.
    + rewrite string_length_append. lia.
  - exists p. split; [exact Hs | tauto].
Qed.

(** ** The read path makes one call *)

(** X15. [fetchCounterValue] makes exactly one external call, the view of
    [<CONTRACT_ADDRESS>::counter::get_counter] with no type arguments and
    the address as only argument; it signs nothing and sends nothing, and
    it writes to [console.error] only when that call fails. *)
Theorem fetchCounterValue_makes_one_view_call :
  forall CONTRACT_ADDRESS w address,
    let payload := {| view_function := CONTRACT_ADDRESS ++ "::counter::get_counter";
                      view_typeArguments := [];
                      view_functionArguments := [address] |} in
    let reply := answer w _ (view payload) [] in
    fst (run w (fetchCounterValue CONTRACT_ADDRESS address))
    = Called (view payload) reply
      :: match reply with
         | Resolved _ => []
         | Rejected e =>
             [Console level_error
                [LString "Error fetching counter value:"; LThrown e]]
         end.
Proof.
  intros C w address payload reply. subst payload reply.
  explore; reflexivity.
Qed.

Lemma slice_append (b k : string) : slice (String.length b) (b ++ k) = k.
Proof. induction b as [| c b IH]; simpl; [destruct k; reflexivity | exact IH]. Qed.

(** X16. A 32-byte key reaches the constructor in one form however it is
    written: for a key [k] of 64 characters and a leading byte [b] of two,
    neither [k] nor [b ++ k] starting with [0x], the four spellings [k],
    [0x k], [b k] and [0x b k] all normalise to [k]. *)
Theorem cleanPublicKey_canonical_form :
  forall k b,
    String.length k = 64 -> String.length b = 2 ->
    startsWith k "0x" = false -> startsWith (b ++ k) "0x" = false ->
    cleanPublicKey k = k /\
    cleanPublicKey ("0x" ++ k) = k /\
    cleanPublicKey (b ++ k) = k /\
    cleanPublicKey ("0x" ++ b ++ k) = k.
Proof.
  intros k b Hk Hb Hpk Hpb.
  assert (Hlen : String.length (b ++ k) = 66)
    by (rewrite string_length_append; lia).
  assert (Hshort : cleanPublicKey k = k)
    by (apply cleanPublicKey_fixed; [exact Hpk | lia]).
  assert (Hlong : cleanPublicKey (b ++ k) = k).
  { unfold cleanPublicKey. rewrite (strip0x_unprefixed _ Hpb), Hlen.
    cbn [Nat.eqb]. rewrite <- Hb. apply slice_append. }
  repeat split.
  - exact Hshort.
  - unfold cleanPublicKey. rewrite strip0x_prefixed.
    unfold cleanPublicKey in Hshort. rewrite (strip0x_unprefixed _ Hpk) in Hshort.
    exact Hshort.
  - exact Hlong.
  - unfold cleanPublicKey. rewrite strip0x_prefixed.
    unfold cleanPublicKey in Hlong. rewrite (strip0x_unprefixed _ Hpb) in Hlong.
    exact Hlong.
Qed.

Lemma cleanPublicKey_canonical_form_witness :
  let k := "a1b2c3d4e5f60718293a4b5c6d7e8f90a1b2c3d4e5f60718293a4b5c6d7e8f90" in
  cleanPublicKey k = k /\
  cleanPublicKey ("0x" ++ k) = k /\
  cleanPublicKey ("00" ++ k) = k /\
  cleanPublicKey ("0x" ++ "00" ++ k) = k.
Proof.
  apply (cleanPublicKey_canonical_form
           "a1b2c3d4e5f60718293a4b5c6d7e8f90a1b2c3d4e5f60718293a4b5c6d7e8f90"
           "00"); reflexivity.
Defined.
